(** * datapunt_api.serializers: HAL-JSON response shaping

    A shallow embedding of [src/datapunt_api/serializers.py] and the
    properties of its hook methods.

    The module is glue code around Django REST Framework.  Everything it
    calls but does not define ([reverse], [json.loads], [str] and
    [format] of an object, the truth value of a geometry, [count()] of a
    related manager, [get_url], the constructor of the base field, the
    Unicode case mapping and the digit limit of the interpreter) is a
    collaborator,
    gathered in the class [Collaborators]; [super().to_representation] of
    the mixin depends on the class the mixin is combined with and is an
    argument of the embedded method.

    Methods are computations over a store of objects, so that a dict
    which is changed where it is, is seen to change by every holder of a
    reference to it.  Collaborators read the store; the base serializer,
    whose result the mixin writes to, may change it as well. *)

From Stdlib Require Import ZArith String Ascii DecimalString DecimalZ.
From stdpp Require Import base option strings pretty list gmap.

Open Scope string_scope.

(** ** Python values and the object store *)

Definition loc := nat.

(** Scalars and containers.  [VFloat m e] is the number [m * 10^e], as a
    JSON text writes it.  [VList] and [VDict] stand for a list or dict
    that nothing else refers to (a literal the method has just built, the
    output of [json.loads]); [VRef] is a reference to an object of the
    store, which other parties may hold as well. *)
#[warnings="-register-all"] Inductive pyval : Type :=
  | VNone
  | VBool (b : bool)
  | VInt (z : Z)
  | VFloat (mantissa exponent : Z)
  | VStr (s : string)
  | VList (items : list pyval)
  | VDict (items : list (string * pyval))
  | VRef (l : loc).

(** A dict or OrderedDict with string keys: insertion order matters. *)
Definition odict := list (string * pyval).

(** Objects of the store: dicts, and class instances with their
    attributes (class attributes included, as attribute lookup finds
    them through the instance). *)
Inductive hobj : Type :=
  | HDict (items : odict)
  | HInst (attrs : gmap string pyval).

Definition heap := gmap loc hobj.

(** Exceptions: the builtin ones the embedded operations raise, and
    [Raised cls] for whatever a collaborator raises. *)
Inductive exn : Type :=
  | AttributeError
  | KeyError
  | IndexError
  | TypeError
  | ValueError
  | Raised (cls : string).

Inductive res (A : Type) : Type :=
  | Ok (a : A)
  | Raise (e : exn).
Arguments Ok {A} a.
Arguments Raise {A} e.

(** The error classes the specification names.  The first two come from
    collaborators; nothing in the module raises the third. *)
Definition ResolutionError : exn := Raised "ResolutionError".
Definition DecodeError : exn := Raised "DecodeError".
Definition MalformedFilterError : exn := Raised "MalformedFilterError".

(** ** Ordered dicts *)

Fixpoint odict_get (k : string) (d : odict) : option pyval :=
  match d with
  | [] => None
  | (k', v) :: d' => if String.eqb k k' then Some v else odict_get k d'
  end.

(** [d[k] = v]: an existing key keeps its position, a new one goes last. *)
Fixpoint odict_set (k : string) (v : pyval) (d : odict) : odict :=
  match d with
  | [] => [(k, v)]
  | (k', v') :: d' =>
      if String.eqb k k' then (k', v) :: d' else (k', v') :: odict_set k v d'
  end.

Definition odict_keys (d : odict) : list string := d.*1.

(** ** Strings *)

(** A text is a string of bytes, the UTF-8 encoding of the Python text.
    It is ASCII when every byte is below 128. *)
Fixpoint is_ascii (s : string) : bool :=
  match s with
  | EmptyString => true
  | String c s' => (nat_of_ascii c <? 128)%nat && is_ascii s'
  end.

(** [str.lower] on an ASCII text: the letters A to Z are lowered, every
    other character is kept.  On other texts [str.lower] follows the
    Unicode case mapping, which is left to the interpreter (see
    [unicode_lower] below). *)
Definition lower_ascii (c : ascii) : ascii :=
  let n := nat_of_ascii c in
  if (65 <=? n)%nat && (n <=? 90)%nat then ascii_of_nat (n + 32) else c.

Fixpoint lower (s : string) : string :=
  match s with
  | EmptyString => EmptyString
  | String c s' => String (lower_ascii c) (lower s')
  end.

(** The decimal numeral of an integer, which is what [str] and [format]
    make of an [int], and the integer that a numeral stands for. *)
Definition int_text (z : Z) : string := NilEmpty.string_of_int (Z.to_int z).

Definition int_of_text (s : string) : option Z :=
  Z.of_int <$> NilEmpty.int_of_string s.

(** The lower case of a character, letter by letter, and what it is for
    [low] to be the lower case of the text [s]: the same length, and
    each character the lower case of the one at its place. *)
Definition lowercase_letter (c : ascii) : ascii :=
  match c with
  | "A" => "a" | "B" => "b" | "C" => "c" | "D" => "d" | "E" => "e"
  | "F" => "f" | "G" => "g" | "H" => "h" | "I" => "i" | "J" => "j"
  | "K" => "k" | "L" => "l" | "M" => "m" | "N" => "n" | "O" => "o"
  | "P" => "p" | "Q" => "q" | "R" => "r" | "S" => "s" | "T" => "t"
  | "U" => "u" | "V" => "v" | "W" => "w" | "X" => "x" | "Y" => "y"
  | "Z" => "z"
  | _ => c
  end%char.

Definition lowercase_of (s low : string) : Prop :=
  String.length low = String.length s
  ∧ ∀ i c, String.get i s = Some c → String.get i low = Some (lowercase_letter c).

(** ** Computations: a store threaded through, an exception or a value *)

Definition M (A : Type) : Type := heap → res A * heap.

#[global] Instance M_ret : MRet M := λ A a h, (Ok a, h).

#[global] Instance M_bind : MBind M := λ A B f m h,
  match m h with
  | (Ok a, h') => f a h'
  | (Raise e, h') => (Raise e, h')
  end.

Definition throw {A} (e : exn) : M A := λ h, (Raise e, h).

(** A step that reads the store and leaves it as it is. *)
Definition observe {A} (f : heap → res A) : M A := λ h, (f h, h).

(** ** Attribute and item access *)

Definition as_mapping (h : heap) (v : pyval) : option odict :=
  match v with
  | VDict d => Some d
  | VRef l => match h !! l with Some (HDict d) => Some d | _ => None end
  | _ => None
  end.

(** The attribute [name] of [v], when [v] is an instance that has it. *)
Definition attr (h : heap) (v : pyval) (name : string) : option pyval :=
  match v with
  | VRef l => match h !! l with Some (HInst attrs) => attrs !! name | _ => None end
  | _ => None
  end.

(** [v.name] *)
Definition getattr (v : pyval) (name : string) : M pyval :=
  observe (λ h,
    match attr h v name with
    | Some x => Ok x
    | None => Raise AttributeError
    end).

(** [v.get(k)] *)
Definition dict_get (v : pyval) (k : string) : M pyval :=
  observe (λ h,
    match as_mapping h v with
    | Some d => Ok (default VNone (odict_get k d))
    | None => Raise AttributeError
    end).

(** [v[k]] *)
Definition getitem (v : pyval) (k : string) : M pyval :=
  observe (λ h,
    match as_mapping h v with
    | Some d =>
        match odict_get k d with
        | Some x => Ok x
        | None => Raise KeyError
        end
    | None => Raise TypeError
    end).

(** [list(v.keys())] *)
Definition keys_list (v : pyval) : M (list string) :=
  observe (λ h,
    match as_mapping h v with
    | Some d => Ok (odict_keys d)
    | None => Raise AttributeError
    end).

(** [l[0]] *)
Definition first {A} (l : list A) : M A :=
  match l with
  | x :: _ => mret x
  | [] => throw IndexError
  end.

(** [v[k] = x].  A dict of the store is updated where it is, and every
    holder of the reference sees the update; the computation gives back
    the handle of the same object. *)
Definition setitem (v : pyval) (k : string) (x : pyval) : M pyval :=
  λ h,
    match v with
    | VDict d => (Ok (VDict (odict_set k x d)), h)
    | VRef l =>
        match h !! l with
        | Some (HDict d) => (Ok (VRef l), <[l := HDict (odict_set k x d)]> h)
        | _ => (Raise TypeError, h)
        end
    | _ => (Raise TypeError, h)
    end.

(** ** Collaborators *)

Class Collaborators : Type := {
  (** [rest_framework.reverse.reverse(viewname, kwargs=..., request=...)] *)
  reverse : string → pyval → pyval → res string;
  (** [json.loads(text)] *)
  json_loads : string → res pyval;
  (** [value.count()] *)
  count : heap → pyval → res pyval;
  (** [self.get_url(obj, view_name, request, format)] *)
  get_url : heap → pyval → pyval → pyval → pyval → pyval → res pyval;
  (** [str(v)] where [v] is not [None], a bool, an int or a str *)
  object_str : heap → pyval → res string;
  (** [format(v, "")], which is what ["{}".format(v)] puts in the hole,
      where [v] is not [None], a bool, an int or a str: the [__format__]
      of its class *)
  object_format : heap → pyval → res string;
  (** [s.lower()] where [s] is not ASCII: the Unicode case mapping *)
  unicode_lower : string → string;
  (** [sys.get_int_max_str_digits()]: the longest numeral that the
      interpreter makes of an [int], 0 when it sets no limit *)
  int_max_str_digits : nat;
  (** [bool(v)] where [v] is an instance: its [__bool__] or [__len__] *)
  object_truth : heap → pyval → res bool;
  (** [serializers.Field.__init__] on the positional and keyword
      arguments: the attributes of the constructed field *)
  Field_init : list pyval → odict → res (gmap string pyval);
}.

Section Serializers.
Context `{collab : Collaborators}.

(** [s.lower()] *)
Definition py_lower (s : string) : string :=
  if is_ascii s then lower s else unicode_lower s.

Definition str_lower (v : pyval) : M string :=
  match v with
  | VStr s => mret (py_lower s)
  | _ => throw AttributeError
  end.

(** The numeral of an [int], which the interpreter refuses with
    [ValueError] when it has more digits than its limit. *)
Definition int_str (z : Z) : res string :=
  if (0 <? int_max_str_digits)%nat
     && (int_max_str_digits <? String.length (int_text (Z.abs z)))%nat
  then Raise ValueError
  else Ok (int_text z).

(** [str(v)] and [format(v, "")] where [v] is [None], a bool, an int or a
    str: on these the two are the same. *)
Definition scalar_str (v : pyval) : option (res string) :=
  match v with
  | VNone => Some (Ok "None")
  | VBool true => Some (Ok "True")
  | VBool false => Some (Ok "False")
  | VInt z => Some (int_str z)
  | VStr s => Some (Ok s)
  | _ => None
  end.

(** [str(v)] *)
Definition py_str (v : pyval) : M string :=
  observe (λ h, default (object_str h v) (scalar_str v)).

(** [format(v, "")], which is what ["{}".format(v)] puts in the hole. *)
Definition py_format (v : pyval) : M string :=
  observe (λ h, default (object_format h v) (scalar_str v)).

(** The truth value that [if v:] tests. *)
Definition py_truth (v : pyval) : M bool :=
  observe (λ h,
    match v with
    | VNone => Ok false
    | VBool b => Ok b
    | VInt z => Ok (negb (z =? 0)%Z)
    | VFloat m _ => Ok (negb (m =? 0)%Z)
    | VStr s => Ok (negb (String.eqb s ""))
    | VList l => Ok (negb (bool_decide (l = [])))
    | VDict d => Ok (negb (bool_decide (d = [])))
    | VRef l =>
        match h !! l with
        | Some (HDict d) => Ok (negb (bool_decide (d = [])))
        | _ => object_truth h v
        end
    end).

(** ** The module *)

(** [get_links(view_name, kwargs=None, request=None)] *)
Definition get_links (view_name : string) (kwargs request : pyval) : M pyval :=
  href ← observe (λ _, reverse view_name kwargs request);
  let result := VDict [("self", VDict [("href", VStr href)])] in
  mret result.

(** [DataSetSerializerMixin.to_representation(self, obj)];
    [super_to_representation] is the next [to_representation] in the
    method resolution order. *)
Definition DataSetSerializerMixin_to_representation
    (super_to_representation : pyval → pyval → M pyval)
    (self obj : pyval) : M pyval :=
  result ← super_to_representation self obj;
  dataset ← getattr self "dataset";
  result ← setitem result "dataset" dataset;
  mret result.

(** [LinksField.to_representation(self, value)] *)
Definition LinksField_to_representation (self value : pyval) : M pyval :=
  context ← getattr self "context";
  request ← dict_get context "request";
  view_name ← getattr self "view_name";
  href ← observe (λ h, get_url h self value view_name request VNone);
  let result := VDict [("self", VDict [("href", href)])] in
  mret result.

(** [RelatedSummaryField.to_representation(self, value)] *)
Definition RelatedSummaryField_to_representation (self value : pyval) : M pyval :=
  count ← observe (λ h, count h value);
  model ← getattr value "model";
  model_name ← getattr model "__name__";
  lowered ← str_lower model_name;
  let mapping := lowered +:+ "-list" in
  context ← getattr self "context";
  request ← getitem context "request";
  url ← observe (λ _, reverse mapping VNone request);
  instance ← getattr value "instance";
  parent_pk ← getattr instance "pk";
  core_filters ← getattr value "core_filters";
  ks ← keys_list core_filters;
  filter_name ← first ks;
  pk_text ← py_format parent_pk;
  mret (VDict [("count", count);
               ("href", VStr (url +:+ "?" +:+ filter_name +:+ "=" +:+ pk_text))]).

(** [DisplayField.__init__] on positional arguments [args] and keyword
    arguments [kwargs] *)
Definition DisplayField_init (args : list pyval) (kwargs : odict)
    : res (gmap string pyval) :=
  let kwargs := odict_set "source" (VStr "*") kwargs in
  let kwargs := odict_set "read_only" (VBool true) kwargs in
  Field_init args kwargs.

(** [DisplayField.to_representation(self, value)] *)
Definition DisplayField_to_representation (self value : pyval) : M pyval :=
  s ← py_str value;
  mret (VStr s).

(** [MultipleGeometryField.get_attribute(self, obj)] *)
Definition MultipleGeometryField_get_attribute (self obj : pyval) : M pyval :=
  getattr obj "geometrie".

(** [MultipleGeometryField.to_representation(self, value)] *)
Definition MultipleGeometryField_to_representation (self value : pyval) : M pyval :=
  let res := VStr "" in
  truth ← py_truth value;
  if (truth : bool) then
    geojson ← getattr value "geojson";
    match geojson with
    | VStr text => observe (λ _, json_loads text)
    | _ => throw TypeError
    end
  else mret res.

End Serializers.

(** ** Shapes of the inputs *)

(** [value] is a related manager of the store: items of model
    [model_name], owned by a record of primary key [pk], reached through
    the reverse filter [filters]. *)
Definition related_manager (h : heap) (value : pyval)
    (model_name : string) (pk : pyval) (filters : odict) : Prop :=
  ∃ model instance core_filters,
    attr h value "model" = Some model ∧
    attr h model "__name__" = Some (VStr model_name) ∧
    attr h value "instance" = Some instance ∧
    attr h instance "pk" = Some pk ∧
    attr h value "core_filters" = Some core_filters ∧
    as_mapping h core_filters = Some filters.

(** The context of the field [self] is the mapping [ctx]. *)
Definition field_context (h : heap) (self : pyval) (ctx : odict) : Prop :=
  ∃ c, attr h self "context" = Some c ∧ as_mapping h c = Some ctx.

(** The base constructor stores the keyword argument [name] as the
    attribute [name] of the field it constructs. *)
Definition stores_kwarg `{collab : Collaborators} (name : string) : Prop :=
  ∀ args kwargs f x,
    Field_init args kwargs = Ok f →
    odict_get name kwargs = Some x →
    f !! name = Some x.

(** ** The input side of a serializer *)

(** Modelled from the spec: the deserialization done by a serializer,
    which is the framework's and not in the source.  A field, given by
    its attributes, is read-only when its attribute [read_only] is
    [True]; a read-only field never takes part in the input, and what the
    input holds under its name is ignored.  The internal value of the
    input [data] has, for each field that is not read-only and in the
    order of the fields, what [data] holds under the name of the field. *)
Definition read_only (field : gmap string pyval) : bool :=
  match field !! "read_only" with
  | Some (VBool true) => true
  | _ => false
  end.

(** Modelled from the spec: the fields that take part in the input, which
    are those that are not read-only. *)
Definition writable_fields (fields : list (string * gmap string pyval))
    : list (string * gmap string pyval) :=
  List.filter (λ f, negb (read_only f.2)) fields.

(** Modelled from the spec: the internal value of the input [data]. *)
Definition to_internal_value (fields : list (string * gmap string pyval))
    (data : odict) : odict :=
  omap (λ f, pair f.1 <$> odict_get f.1 data) (writable_fields fields).

(** A computation that leaves the store as it found it, whatever its
    outcome. *)
Definition observer {A} (m : M A) : Prop := ∀ h, (m h).2 = h.

(** A computation that, run again in the store it left, has the same
    outcome and leaves the same store. *)
Definition repeatable {A} (m : M A) : Prop := ∀ h, m (m h).2 = m h.


(** ** A concrete store and concrete collaborators

    A small Widget/Part database, used to run the methods on actual
    inputs. *)

Module Scenario.

Definition dq : string := String "034"%char EmptyString.
Definition quoted (s : string) : string := dq +:+ s +:+ dq.

(** The GeoJSON text of the point (4.9, 52.3) and of the empty point. *)
Definition point_text : string :=
  "{" +:+ quoted "type" +:+ ": " +:+ quoted "Point" +:+ ", "
      +:+ quoted "coordinates" +:+ ": [4.9, 52.3]}".
Definition empty_point_text : string :=
  "{" +:+ quoted "type" +:+ ": " +:+ quoted "Point" +:+ ", "
      +:+ quoted "coordinates" +:+ ": []}".

Definition point_json : pyval :=
  VDict [("type", VStr "Point");
         ("coordinates", VList [VFloat 49 (-1); VFloat 523 (-1)])].
Definition empty_point_json : pyval :=
  VDict [("type", VStr "Point"); ("coordinates", VList [])].

(** Locations of the objects of the store. *)
Definition serializer : loc := 0.
Definition context : loc := 1.
Definition request : loc := 2.
Definition widget : loc := 3.
Definition point : loc := 4.
Definition parts : loc := 5.
Definition Part : loc := 6.
Definition parts_filters : loc := 7.
Definition rendered : loc := 8.
Definition bare_widget : loc := 9.
Definition empty_point : loc := 10.
Definition orphans : loc := 11.
Definition no_filters : loc := 12.
Definition hollow_widget : loc := 13.
Definition broken_point : loc := 14.
Definition gadgets : loc := 15.
Definition Gadget : loc := 16.
Definition other_serializer : loc := 17.
Definition spares : loc := 18.
Definition SparePart : loc := 19.
Definition classes : loc := 20.
Definition Ecole : loc := 21.
Definition feed : loc := 22.

Definition inst (attrs : list (string * pyval)) : hobj := HInst (list_to_map attrs).

Definition store : heap :=
  list_to_map
    [ (serializer, inst [("dataset", VStr "bag"); ("context", VRef context);
                         ("view_name", VStr "widget-detail")]);
      (context, HDict [("request", VRef request)]);
      (request, inst []);
      (widget, inst [("pk", VInt 42); ("geometrie", VRef point)]);
      (point, inst [("geojson", VStr point_text)]);
      (parts, inst [("model", VRef Part); ("instance", VRef widget);
                    ("core_filters", VRef parts_filters)]);
      (Part, inst [("__name__", VStr "Part")]);
      (parts_filters, HDict [("parent_id", VRef widget)]);
      (rendered, HDict [("id", VInt 5)]);
      (bare_widget, inst [("pk", VInt 7); ("geometrie", VNone)]);
      (empty_point, inst [("geojson", VStr empty_point_text)]);
      (orphans, inst [("model", VRef Part); ("instance", VRef widget);
                      ("core_filters", VRef no_filters)]);
      (no_filters, HDict []);
      (hollow_widget, inst [("pk", VInt 8); ("geometrie", VRef empty_point)]);
      (broken_point, inst [("geojson", VStr "POINT (4.9 52.3)")]);
      (gadgets, inst [("model", VRef Gadget); ("instance", VRef widget);
                      ("core_filters", VRef parts_filters)]);
      (Gadget, inst [("__name__", VStr "Gadget")]);
      (other_serializer, inst [("dataset", VStr "brk"); ("context", VRef context);
                               ("view_name", VStr "gadget-detail")]);
      (spares, inst [("model", VRef SparePart); ("instance", VRef widget);
                     ("core_filters", VRef parts_filters)]);
      (SparePart, inst [("__name__", VStr "SparePart")]);
      (classes, inst [("model", VRef Ecole); ("instance", VRef widget);
                      ("core_filters", VRef parts_filters)]);
      (Ecole, inst [("__name__", VStr "École")]);
      (feed, HDict [("id", VInt 5)]) ].

(** Four routes resolve, every other name fails. *)
Definition demo_reverse (name : string) (kwargs request : pyval) : res string :=
  if String.eqb name "part-list" then Ok "http://testserver/parts/"
  else if String.eqb name "widget-detail" then Ok "http://testserver/widgets/42/"
  else if String.eqb name "sparepart-list" then Ok "http://testserver/spareparts/"
  else if String.eqb name "école-list" then Ok "http://testserver/ecoles/"
  else Raise ResolutionError.

(** The case mapping of the letters À to Þ, which UTF-8 writes as the
    byte 195 and a byte from 128 to 158: the second byte goes up by 32;
    the letters A to Z are lowered as well. *)
Fixpoint demo_unicode_lower (s : string) : string :=
  match s with
  | EmptyString => EmptyString
  | String c s' =>
      match s' with
      | String c' s'' =>
          if (nat_of_ascii c =? 195)%nat
             && (128 <=? nat_of_ascii c')%nat && (nat_of_ascii c' <=? 158)%nat
          then String c (String (ascii_of_nat (nat_of_ascii c' + 32))
                           (demo_unicode_lower s''))
          else String (lower_ascii c) (demo_unicode_lower s')
      | EmptyString => String (lower_ascii c) EmptyString
      end
  end.

Definition demo_json_loads (text : string) : res pyval :=
  if String.eqb text point_text then Ok point_json
  else if String.eqb text empty_point_text then Ok empty_point_json
  else Raise DecodeError.

(** The widget has no parts. *)
Definition demo_count (h : heap) (v : pyval) : res pyval :=
  match attr h v "core_filters" with
  | Some _ => Ok (VInt 0)
  | None => Raise AttributeError
  end.

Definition demo_get_url (h : heap) (self obj view_name request format : pyval)
    : res pyval :=
  match view_name with
  | VStr name => match demo_reverse name VNone request with
                 | Ok u => Ok (VStr u)
                 | Raise e => Raise e
                 end
  | _ => Raise TypeError
  end.

Definition demo_object_str (h : heap) (v : pyval) : res string :=
  match v with
  | VRef 3 => Ok "Widget #7"
  | _ => Ok "<object>"
  end.

(** The empty point has length 0; objects without a length are true. *)
Definition demo_object_truth (h : heap) (v : pyval) : res bool :=
  match v with
  | VRef 10 => Ok false
  | _ => Ok true
  end.

(** The base field constructor: it takes keyword arguments only, refuses
    a field that is both read-only and write-only, and stores its
    arguments as attributes. *)
Definition demo_Field_init (args : list pyval) (kwargs : odict)
    : res (gmap string pyval) :=
  match args with
  | _ :: _ => Raise TypeError
  | [] =>
      let read_only := default (VBool false) (odict_get "read_only" kwargs) in
      let write_only := default (VBool false) (odict_get "write_only" kwargs) in
      match read_only, write_only with
      | VBool true, VBool true => Raise (Raised "AssertionError")
      | _, _ =>
          Ok (list_to_map
                [("read_only", read_only); ("write_only", write_only);
                 ("source", default VNone (odict_get "source" kwargs))])
      end
  end.

Definition demo : Collaborators := {|
  reverse := demo_reverse;
  json_loads := demo_json_loads;
  count := demo_count;
  get_url := demo_get_url;
  object_str := demo_object_str;
  object_format := demo_object_str;
  unicode_lower := demo_unicode_lower;
  int_max_str_digits := 4300;
  object_truth := demo_object_truth;
  Field_init := demo_Field_init;
|}.

(** A base serializer that hands out the dict stored at [rendered]. *)
Definition shared_base (self obj : pyval) : M pyval := mret (VRef rendered).

(** The attributes of a display field, as [demo_Field_init] builds it. *)
Definition display_attrs : gmap string pyval :=
  list_to_map [("read_only", VBool true); ("write_only", VBool false);
               ("source", VStr "*")].

(** The fields of a widget serializer: a name that can be written and
    the display field. *)
Definition widget_fields : list (string * gmap string pyval) :=
  [("name", list_to_map [("read_only", VBool false); ("write_only", VBool false);
                         ("source", VNone)]);
   ("_display", display_attrs)].

(** A base serializer that renders a dict as that dict. *)
Definition pass_through_base (self obj : pyval) : M pyval := mret obj.

(** A base serializer that builds a new mapping at each call. *)
Definition fresh_base (self obj : pyval) : M pyval := mret (VDict [("id", VInt 5)]).


End Scenario.

(** ** The self link of a detail view *)

(** What the view set of a serializer supplies:
    [view.reverse_action(url_name, args=[...])]. *)
Class ViewSet : Type := {
  reverse_action : heap → pyval → string → list pyval → res pyval;
}.

(** [getattr(obj, name)], the name being a value. *)
Definition getattr_named (obj name : pyval) : M pyval :=
  match name with
  | VStr n => getattr obj n
  | _ => throw TypeError
  end.

(** [SelfLinkSerializerMixin.get__links(self, obj)] *)
Definition SelfLinkSerializerMixin_get__links `{views : ViewSet}
    (self obj : pyval) : M pyval :=
  context ← getattr self "context";
  view ← getitem context "view";
  queryset ← getattr view "queryset";
  model ← getattr queryset "model";
  _meta ← getattr model "_meta";
  pk ← getattr _meta "pk";
  name ← getattr pk "name";
  pk_value ← getattr_named obj name;
  href ← observe (λ h, reverse_action h view "detail" [pk_value]);
  mret (VDict [("self", VDict [("href", href)])]).

(** The model behind the view [view] names its primary key field
    [pk_name]. *)
Definition view_of_model (h : heap) (view : pyval) (pk_name : pyval) : Prop :=
  ∃ queryset model meta pk,
    attr h view "queryset" = Some queryset ∧
    attr h queryset "model" = Some model ∧
    attr h model "_meta" = Some meta ∧
    attr h meta "pk" = Some pk ∧
    attr h pk "name" = Some pk_name.

(** Two lists of keyword arguments with the same keys in the same order,
    and the same values but for the keys in [ks]. *)
Definition same_but (ks : list string) (d1 d2 : odict) : Prop :=
  Forall2 (λ p q, p.1 = q.1 ∧ (p.1 ∉ ks → p.2 = q.2)) d1 d2.

(** ** A catalogue with a view set *)

Module Catalogue.

Definition serializer : loc := 0.
Definition context : loc := 1.
Definition request : loc := 2.
Definition view : loc := 3.
Definition queryset : loc := 4.
Definition Widget : loc := 5.
Definition Widget_meta : loc := 6.
Definition Widget_pk : loc := 7.
Definition widget : loc := 8.
Definition links_field : loc := 9.
Definition parts : loc := 10.
Definition Part : loc := 11.
Definition parts_filters : loc := 12.
Definition draft : loc := 13.
Definition offline_field : loc := 14.
Definition offline_context : loc := 15.
Definition untagged : loc := 16.
Definition rendered : loc := 17.
Definition sketch : loc := 18.
Definition prototype : loc := 19.

Definition store : heap :=
  list_to_map
    [ (serializer, Scenario.inst [("dataset", VStr "bag"); ("context", VRef context)]);
      (context, HDict [("request", VRef request); ("view", VRef view)]);
      (request, Scenario.inst []);
      (view, Scenario.inst [("queryset", VRef queryset)]);
      (queryset, Scenario.inst [("model", VRef Widget)]);
      (Widget, Scenario.inst [("__name__", VStr "Widget"); ("_meta", VRef Widget_meta)]);
      (Widget_meta, Scenario.inst [("pk", VRef Widget_pk)]);
      (Widget_pk, Scenario.inst [("name", VStr "nummer")]);
      (widget, Scenario.inst [("nummer", VInt 42); ("pk", VInt 42)]);
      (links_field, Scenario.inst [("context", VRef context);
                                   ("view_name", VStr "widget-detail")]);
      (parts, Scenario.inst [("model", VRef Part); ("instance", VRef draft);
                             ("core_filters", VRef parts_filters)]);
      (Part, Scenario.inst [("__name__", VStr "Part")]);
      (parts_filters, HDict [("parent_id", VRef draft); ("status", VStr "open")]);
      (draft, Scenario.inst [("pk", VNone)]);
      (offline_field, Scenario.inst [("context", VRef offline_context);
                                     ("view_name", VStr "widget-detail")]);
      (offline_context, HDict []);
      (untagged, Scenario.inst [("context", VRef context)]);
      (rendered, HDict [("id", VInt 5)]);
      (sketch, Scenario.inst [("geometrie", VStr "POINT (4.9 52.3)")]);
      (prototype, Scenario.inst [("nummer", VStr "p-1"); ("pk", VStr "p-1")]) ].

(** The detail route of the widgets. *)
Definition demo_reverse_action (h : heap) (view : pyval) (url_name : string)
    (args : list pyval) : res pyval :=
  match args with
  | [VInt z] =>
      if String.eqb url_name "detail"
      then Ok (VStr ("http://testserver/widgets/" +:+ pretty z +:+ "/"))
      else Raise ResolutionError
  | _ => Raise ResolutionError
  end.

Definition demo_views : ViewSet := {| reverse_action := demo_reverse_action |}.

(** A base serializer that hands out the dict stored at [rendered]. *)
Definition shared_base (self obj : pyval) : M pyval := mret (VRef rendered).

(** A base serializer that renders nothing. *)
Definition null_base (self obj : pyval) : M pyval := mret VNone.

End Catalogue.


(** * Properties *)

(** ** Running computations *)

Lemma bind_ok {A B} (m : M A) (f : A → M B) h a h' :
  m h = (Ok a, h') → (m ≫= f) h = f a h'.
Proof. intros Hm. unfold mbind, M_bind. by rewrite Hm. Qed.

Lemma bind_raise {A B} (m : M A) (f : A → M B) h e h' :
  m h = (Raise e, h') → (m ≫= f) h = (Raise e, h').
Proof. intros Hm. unfold mbind, M_bind. by rewrite Hm. Qed.

Lemma getattr_ok h v name x :
  attr h v name = Some x → getattr v name h = (Ok x, h).
Proof. intros Hx. unfold getattr, observe. by rewrite Hx. Qed.

Lemma getitem_ok h v d k x :
  as_mapping h v = Some d → odict_get k d = Some x → getitem v k h = (Ok x, h).
Proof. intros Hd Hx. unfold getitem, observe. by rewrite Hd, Hx. Qed.

Lemma dict_get_ok h v d k :
  as_mapping h v = Some d → dict_get v k h = (Ok (default VNone (odict_get k d)), h).
Proof. intros Hd. unfold dict_get, observe. by rewrite Hd. Qed.

Lemma keys_list_ok h v d :
  as_mapping h v = Some d → keys_list v h = (Ok (odict_keys d), h).
Proof. intros Hd. unfold keys_list, observe. by rewrite Hd. Qed.

Lemma observe_eq {A} (f : heap → res A) h r : f h = r → observe f h = (r, h).
Proof. by intros <-. Qed.

(** Rewrites the next step of a computation with a fact about it. *)
Ltac step H :=
  first
    [ erewrite bind_ok by (first [ exact H
                                  | apply getattr_ok, H
                                  | apply observe_eq, H ])
    | erewrite bind_raise by (first [ exact H | apply observe_eq, H ]) ];
  cbv beta iota.

(** ** Ordered dicts: reading after writing *)

Lemma odict_get_set_eq k v d : odict_get k (odict_set k v d) = Some v.
Proof.
  induction d as [|[k' v'] d IH]; simpl.
  - by rewrite String.eqb_refl.
  - destruct (String.eqb k k') eqn:E; simpl; rewrite E; done.
Qed.

Lemma odict_get_set_ne k k' v d :
  k ≠ k' → odict_get k' (odict_set k v d) = odict_get k' d.
Proof.
  intros Hne. induction d as [|[k0 v0] d IH]; simpl.
  - destruct (String.eqb k' k) eqn:E; [|done].
    apply String.eqb_eq in E. congruence.
  - destruct (String.eqb k k0) eqn:E; simpl; [|by rewrite IH].
    apply String.eqb_eq in E. subst k0.
    destruct (String.eqb k' k) eqn:E'; [|done].
    apply String.eqb_eq in E'. congruence.
Qed.

Lemma odict_set_set k v1 v2 d :
  odict_set k v2 (odict_set k v1 d) = odict_set k v2 d.
Proof.
  induction d as [|[k' v'] d IH]; simpl.
  - by rewrite String.eqb_refl.
  - destruct (String.eqb k k') eqn:E; simpl; rewrite E; [done|by rewrite IH].
Qed.

Lemma odict_keys_set k v d :
  odict_keys (odict_set k v d)
  = if decide (k ∈ odict_keys d) then odict_keys d else (odict_keys d ++ [k])%list.
Proof.
  unfold odict_keys. induction d as [|[k' v'] d IH].
  - simpl. done.
  - cbn [odict_set]. destruct (String.eqb k k') eqn:E; rewrite !fmap_cons; cbn [fst].
    + apply String.eqb_eq in E. subst k'.
      rewrite decide_True; [done|apply list_elem_of_here].
    + apply String.eqb_neq in E. rewrite IH.
      destruct (decide (k ∈ d.*1)) as [Hin|Hin].
      * rewrite decide_True; [done|by apply list_elem_of_further].
      * rewrite decide_False; [done|by apply not_elem_of_cons].
Qed.

(** Writing into a dict of the store changes no attribute of any
    instance. *)
Lemma attr_insert_dict h l d d' v name :
  h !! l = Some (HDict d) → attr (<[l := HDict d']> h) v name = attr h v name.
Proof.
  intros Hl. destruct v as [| | | | | | |l0]; try done.
  unfold attr, heap in *.
  destruct (decide (l = l0)) as [<-|Hne].
  - by rewrite lookup_insert_eq, Hl.
  - by rewrite lookup_insert_ne.
Qed.

Lemma setitem_ref h l d k x :
  h !! l = Some (HDict d) →
  setitem (VRef l) k x h = (Ok (VRef l), <[l := HDict (odict_set k x d)]> h).
Proof. intros Hl. unfold setitem. by rewrite Hl. Qed.


Section Properties.
Context `{collab : Collaborators}.

(** ** Rule A: the self link *)

(** C2. Whenever the URL resolution succeeds with [u], [get_links] and
    [LinksField.to_representation] return the mapping with the single key
    [self], bound to the mapping with the single key [href], bound to [u]. *)
Theorem self_link_envelope :
  (∀ view_name kwargs request u h,
     reverse view_name kwargs request = Ok u →
     get_links view_name kwargs request h
     = (Ok (VDict [("self", VDict [("href", VStr u)])]), h))
  ∧
  (∀ self value ctx view_name u h,
     field_context h self ctx →
     attr h self "view_name" = Some view_name →
     get_url h self value view_name (default VNone (odict_get "request" ctx)) VNone
     = Ok (VStr u) →
     LinksField_to_representation self value h
     = (Ok (VDict [("self", VDict [("href", VStr u)])]), h)).
Proof.
  split.
  - intros view_name kwargs request u h Hu.
    unfold get_links. by step Hu.
  - intros self value ctx view_name u h (c & Hc & Hctx) Hname Hu.
    unfold LinksField_to_representation.
    step Hc. erewrite bind_ok by (by apply dict_get_ok).
    step Hname. by step Hu.
Qed.

(** ** Texts: lower case and numerals *)

Lemma lower_ascii_letter c : lower_ascii c = lowercase_letter c.
Proof. destruct c as [[] [] [] [] [] [] [] []]; reflexivity. Qed.

Lemma lower_lowercase_of s : lowercase_of s (lower s).
Proof.
  split.
  - induction s as [|c s IH]; simpl; [done|by rewrite IH].
  - induction s as [|c s IH]; intros i c' Hget; [done|].
    destruct i as [|i]; simpl in *.
    + injection Hget as <-. by rewrite lower_ascii_letter.
    + by apply IH.
Qed.

Lemma is_ascii_get name :
  is_ascii name = true
  ↔ ∀ i c, String.get i name = Some c → (nat_of_ascii c < 128)%nat.
Proof.
  induction name as [|c name IH]; simpl.
  - split; [intros _ i c' Hget; done|done].
  - rewrite andb_true_iff, IH, Nat.ltb_lt. split.
    + intros [Hc Hname] [|i] c' Hget; [by injection Hget as <-|by eapply Hname].
    + intros Hall. split; [by apply (Hall 0%nat)|].
      intros i c' Hget. by apply (Hall (S i)).
Qed.

(** [s.lower()] on a text of characters below 128, and on any other. *)
Lemma py_lower_ascii name :
  (∀ i c, String.get i name = Some c → (nat_of_ascii c < 128)%nat) →
  lowercase_of name (py_lower name).
Proof.
  intros Hname%is_ascii_get. unfold py_lower. rewrite Hname.
  apply lower_lowercase_of.
Qed.

Lemma py_lower_unicode name i c :
  String.get i name = Some c → (128 ≤ nat_of_ascii c)%nat →
  py_lower name = unicode_lower name.
Proof.
  intros Hget Hc. unfold py_lower.
  destruct (is_ascii name) eqn:Hname; [|done].
  pose proof (proj1 (is_ascii_get name) Hname i c Hget). lia.
Qed.

(** A numeral stands for the integer it was made of. *)
Lemma int_of_text_int_text z : int_of_text (int_text z) = Some z.
Proof.
  unfold int_of_text, int_text. rewrite NilEmpty.isi. simpl.
  by rewrite DecimalZ.of_to.
Qed.

Lemma int_str_ok z text : int_str z = Ok text → text = int_text z.
Proof. unfold int_str. case_match; congruence. Qed.

Lemma py_format_int z h text :
  py_format (VInt z) h = (Ok text, h) → int_of_text text = Some z.
Proof.
  unfold py_format, observe. simpl. intros Htext.
  injection Htext as Htext%int_str_ok. subst text. apply int_of_text_int_text.
Qed.

(** ** Rule C: the summary of a related collection *)

(** The computation up to the resolution of the route. *)
Lemma related_summary_route self value h c model name ctx request :
  count h value = Ok c →
  attr h value "model" = Some model →
  attr h model "__name__" = Some (VStr name) →
  field_context h self ctx →
  odict_get "request" ctx = Some request →
  RelatedSummaryField_to_representation self value h
  = (url ← observe (λ _, reverse (py_lower name +:+ "-list") VNone request);
     instance ← getattr value "instance";
     parent_pk ← getattr instance "pk";
     core_filters ← getattr value "core_filters";
     ks ← keys_list core_filters;
     filter_name ← first ks;
     pk_text ← py_format parent_pk;
     mret (VDict [("count", c);
                  ("href", VStr (url +:+ "?" +:+ filter_name +:+ "=" +:+ pk_text))])) h.
Proof.
  intros Hc Hm Hn (cx & Hcx & Hctx) Hreq.
  unfold RelatedSummaryField_to_representation.
  step Hc. step Hm. step Hn. unfold str_lower.
  erewrite bind_ok by reflexivity. cbn beta.
  step Hcx. erewrite bind_ok by (by eapply getitem_ok). done.
Qed.

(** The computation up to the choice of the filter name. *)
Lemma related_summary_run self value h c name pk filters ctx request url :
  count h value = Ok c →
  related_manager h value name pk filters →
  field_context h self ctx →
  odict_get "request" ctx = Some request →
  reverse (py_lower name +:+ "-list") VNone request = Ok url →
  RelatedSummaryField_to_representation self value h
  = (filter_name ← first (odict_keys filters);
     pk_text ← py_format pk;
     mret (VDict [("count", c);
                  ("href", VStr (url +:+ "?" +:+ filter_name +:+ "=" +:+ pk_text))])) h.
Proof.
  intros Hc (model & instance & cf & Hm & Hn & Hi & Hpk & Hcf & Hfs) Hctx Hreq Hurl.
  rewrite (related_summary_route _ _ _ _ _ _ _ _ Hc Hm Hn Hctx Hreq).
  step Hurl. step Hi. step Hpk. step Hcf.
  erewrite bind_ok by (by apply keys_list_ok). done.
Qed.

(** C4. A manager with the single filter key [k], owned by the record of
    primary key [pk], is summarised as its count and the list URL of the
    lower-cased model name, followed by [?k=pk].  The route is asked for
    under [model_name.lower()], which for an ASCII name is the name with
    each of the letters A to Z lowered, and for any other name what the
    Unicode case mapping of the interpreter gives; the primary key is
    put in as
    [format] renders it, an integer as its decimal numeral, a string as
    it is, an object by the [__format__] of its class.  With the
    key [parent_id] and the primary key 42 the link ends with
    [?parent_id=42]; a count of 0 is returned like any other. *)
Theorem related_summary self value h c name pk k x ctx request url pk_text :
  count h value = Ok c →
  related_manager h value name pk [(k, x)] →
  field_context h self ctx →
  odict_get "request" ctx = Some request →
  reverse (py_lower name +:+ "-list") VNone request = Ok url →
  py_format pk h = (Ok pk_text, h) →
  let href := url +:+ "?" +:+ k +:+ "=" +:+ pk_text in
  RelatedSummaryField_to_representation self value h
  = (Ok (VDict [("count", c); ("href", VStr href)]), h)
  ∧ ((∀ i c, String.get i name = Some c → (nat_of_ascii c < 128)%nat) →
     lowercase_of name (py_lower name))
  ∧ (∀ i c, String.get i name = Some c → (128 ≤ nat_of_ascii c)%nat →
     py_lower name = unicode_lower name)
  ∧ (∀ z, pk = VInt z → int_of_text pk_text = Some z)
  ∧ (∀ s, pk = VStr s → pk_text = s)
  ∧ (∀ l, pk = VRef l → object_format h pk = Ok pk_text)
  ∧ (k = "parent_id" → pk = VInt 42 → href = url +:+ "?parent_id=42")
  ∧ (c = VInt 0 →
     RelatedSummaryField_to_representation self value h
     = (Ok (VDict [("count", VInt 0); ("href", VStr href)]), h)).
Proof.
  intros Hc Hman Hctx Hreq Hurl Hpk href.
  assert (RelatedSummaryField_to_representation self value h
          = (Ok (VDict [("count", c); ("href", VStr href)]), h)) as Hrun.
  { rewrite (related_summary_run _ _ _ _ _ _ _ _ _ _ Hc Hman Hctx Hreq Hurl).
    cbn [odict_keys fmap list_fmap fst first].
    erewrite bind_ok by reflexivity. cbn beta.
    by erewrite bind_ok by exact Hpk. }
  split; [exact Hrun|]. split; [apply py_lower_ascii|].
  split; [apply py_lower_unicode|].
  split; [intros z ->; by eapply py_format_int|].
  split; [intros s ->; unfold py_format, observe in Hpk; by injection Hpk as <-|].
  split; [intros l ->; unfold py_format, observe in Hpk; by injection Hpk as ->|].
  split.
  - intros -> ->. unfold py_format, observe in Hpk. simpl in Hpk.
    injection Hpk as Hpk%int_str_ok. by subst pk_text.
  - intros <-. exact Hrun.
Qed.

(** C1, as the code has it. A manager whose filter mapping has no key
    makes the method fail with [IndexError], raised by taking the first
    element of the empty list of keys, once [count()] and the URL
    resolution have succeeded. *)
Theorem related_summary_no_filter self value h c name pk ctx request url :
  count h value = Ok c →
  related_manager h value name pk [] →
  field_context h self ctx →
  odict_get "request" ctx = Some request →
  reverse (py_lower name +:+ "-list") VNone request = Ok url →
  RelatedSummaryField_to_representation self value h = (Raise IndexError, h).
Proof.
  intros Hc Hman Hctx Hreq Hurl.
  by rewrite (related_summary_run _ _ _ _ _ _ _ _ _ _ Hc Hman Hctx Hreq Hurl).
Qed.

(** ** Failures of collaborators *)

(** C7. A failure of the URL resolution (in [get_links], in
    [LinksField] and in [RelatedSummaryField]), of [count()], of the
    GeoJSON decoder, of the base serializer or of the display conversion
    is the outcome of the method: the same exception, and no value. *)
Theorem collaborator_failures_propagate :
  (∀ view_name kwargs request e h,
     reverse view_name kwargs request = Raise e →
     get_links view_name kwargs request h = (Raise e, h))
  ∧
  (∀ self value ctx view_name e h,
     field_context h self ctx →
     attr h self "view_name" = Some view_name →
     get_url h self value view_name (default VNone (odict_get "request" ctx)) VNone
     = Raise e →
     LinksField_to_representation self value h = (Raise e, h))
  ∧
  (∀ self value e h,
     count h value = Raise e →
     RelatedSummaryField_to_representation self value h = (Raise e, h))
  ∧
  (∀ self value c model name ctx request e h,
     count h value = Ok c →
     attr h value "model" = Some model →
     attr h model "__name__" = Some (VStr name) →
     field_context h self ctx →
     odict_get "request" ctx = Some request →
     reverse (py_lower name +:+ "-list") VNone request = Raise e →
     RelatedSummaryField_to_representation self value h = (Raise e, h))
  ∧
  (∀ self value text e h,
     py_truth value h = (Ok true, h) →
     attr h value "geojson" = Some (VStr text) →
     json_loads text = Raise e →
     MultipleGeometryField_to_representation self value h = (Raise e, h))
  ∧
  (∀ super_to_representation self obj e h h',
     super_to_representation self obj h = (Raise e, h') →
     DataSetSerializerMixin_to_representation super_to_representation self obj h
     = (Raise e, h'))
  ∧
  (∀ self value e h,
     py_str value h = (Raise e, h) →
     DisplayField_to_representation self value h = (Raise e, h)).
Proof.
  repeat split.
  - intros view_name kwargs request e h He.
    unfold get_links. by step He.
  - intros self value ctx view_name e h (c & Hc & Hctx) Hname He.
    unfold LinksField_to_representation.
    step Hc. erewrite bind_ok by (by apply dict_get_ok).
    step Hname. by step He.
  - intros self value e h He.
    unfold RelatedSummaryField_to_representation. by step He.
  - intros self value c model name ctx request e h Hc Hm Hn Hctx Hreq He.
    rewrite (related_summary_route _ _ _ _ _ _ _ _ Hc Hm Hn Hctx Hreq).
    by step He.
  - intros self value text e h Htruth Hgeo He.
    unfold MultipleGeometryField_to_representation. cbv zeta.
    step Htruth. step Hgeo. by apply observe_eq.
  - intros super_to_representation self obj e h h' He.
    unfold DataSetSerializerMixin_to_representation. by step He.
  - intros self value e h He.
    unfold DisplayField_to_representation. by step He.
Qed.

(** ** Rule B: the dataset tag *)

(** What the mixin does with the mapping the base serializer returned,
    when that mapping is the dict [d] stored at [l]. *)
Lemma dataset_tag_run super_to_representation self obj h l h1 d ds :
  super_to_representation self obj h = (Ok (VRef l), h1) →
  h1 !! l = Some (HDict d) →
  attr h1 self "dataset" = Some ds →
  DataSetSerializerMixin_to_representation super_to_representation self obj h
  = (Ok (VRef l), <[l := HDict (odict_set "dataset" ds d)]> h1).
Proof.
  intros Hbase Hl Hds.
  unfold DataSetSerializerMixin_to_representation.
  step Hbase. step Hds.
  erewrite bind_ok by (by apply setitem_ref). done.
Qed.

(** C3, as the code has it. The mixin sets the key [dataset] in the
    mapping the base serializer returned and returns that same object:
    the dict of the store is updated where it is (no copy is made), the
    other keys keep their value, a [dataset] key that is already there
    keeps its position and otherwise the key goes last; a second
    application with another name overwrites the first name.  A mapping
    that nothing else refers to is returned with the same update. *)
Theorem dataset_tag :
  (∀ super_to_representation self obj h l h1 d ds,
     super_to_representation self obj h = (Ok (VRef l), h1) →
     h1 !! l = Some (HDict d) →
     attr h1 self "dataset" = Some ds →
     let d' := odict_set "dataset" ds d in
     DataSetSerializerMixin_to_representation super_to_representation self obj h
     = (Ok (VRef l), <[l := HDict d']> h1)
     ∧ odict_get "dataset" d' = Some ds
     ∧ (∀ k, k ≠ "dataset" → odict_get k d' = odict_get k d)
     ∧ odict_keys d'
       = (if decide ("dataset" ∈ odict_keys d) then odict_keys d
          else (odict_keys d ++ ["dataset"])%list)
     ∧ (∀ self2 ds2,
          attr h1 self2 "dataset" = Some ds2 →
          DataSetSerializerMixin_to_representation
            (λ _ o, DataSetSerializerMixin_to_representation
                      super_to_representation self o)
            self2 obj h
          = (Ok (VRef l), <[l := HDict (odict_set "dataset" ds2 d)]> h1)))
  ∧
  (∀ super_to_representation self obj h h1 d ds,
     super_to_representation self obj h = (Ok (VDict d), h1) →
     attr h1 self "dataset" = Some ds →
     DataSetSerializerMixin_to_representation super_to_representation self obj h
     = (Ok (VDict (odict_set "dataset" ds d)), h1)).
Proof.
  split.
  - intros base self obj h l h1 d ds Hbase Hl Hds d'.
    pose proof (dataset_tag_run _ _ _ _ _ _ _ _ Hbase Hl Hds) as Hrun.
    split; [exact Hrun|]. split; [apply odict_get_set_eq|].
    split; [intros k Hk; by apply odict_get_set_ne|].
    split; [apply odict_keys_set|].
    intros self2 ds2 Hds2.
    rewrite (dataset_tag_run _ self2 obj h l (<[l := HDict d']> h1) d' ds2 Hrun).
    + unfold heap in *. rewrite insert_insert_eq. subst d'. by rewrite odict_set_set.
    + unfold heap in *. apply lookup_insert_eq.
    + by rewrite (attr_insert_dict _ _ d).
  - intros base self obj h h1 d ds Hbase Hds.
    unfold DataSetSerializerMixin_to_representation.
    step Hbase. step Hds. done.
Qed.

(** ** Rule E: the geometry *)

(** C5, as the code has it. A record whose [geometrie] is [None] is
    rendered as the empty string; a record whose geometry is true (not
    [None] and not empty) is rendered as what the decoder makes of the
    geometry's GeoJSON text, so as a mapping with the keys [type] and
    [coordinates] when the decoder returns one. *)
Theorem geometry_passthrough :
  (∀ self obj h,
     attr h obj "geometrie" = Some VNone →
     MultipleGeometryField_get_attribute self obj h = (Ok VNone, h)
     ∧ MultipleGeometryField_to_representation self VNone h = (Ok (VStr ""), h))
  ∧
  (∀ self obj g text j h,
     attr h obj "geometrie" = Some g →
     py_truth g h = (Ok true, h) →
     attr h g "geojson" = Some (VStr text) →
     json_loads text = Ok j →
     MultipleGeometryField_get_attribute self obj h = (Ok g, h)
     ∧ MultipleGeometryField_to_representation self g h = (Ok j, h)).
Proof.
  split.
  - intros self obj h Hg. split.
    + by apply getattr_ok.
    + reflexivity.
  - intros self obj g text j h Hg Htruth Hgeo Hj. split.
    + by apply getattr_ok.
    + unfold MultipleGeometryField_to_representation. cbv zeta.
      step Htruth. step Hgeo. by apply observe_eq.
Qed.

Lemma geometry_false_run self value h :
  py_truth value h = (Ok false, h) →
  MultipleGeometryField_to_representation self value h = (Ok (VStr ""), h).
Proof.
  intros Hfalse.
  unfold MultipleGeometryField_to_representation. cbv zeta. by step Hfalse.
Qed.

(** C9. The test on the geometry is its truth value: every value that is
    false, [None] or not, is rendered as the empty string, whatever the
    decoder would make of it; and a result other than the empty string
    is what the decoder made of the GeoJSON text of a true value. *)
Theorem geometry_truth_test :
  (∀ self value h,
     py_truth value h = (Ok false, h) →
     MultipleGeometryField_to_representation self value h = (Ok (VStr ""), h))
  ∧
  (∀ self l h,
     object_truth h (VRef l) = Ok false →
     (∀ d, h !! l ≠ Some (HDict d)) →
     MultipleGeometryField_to_representation self (VRef l) h = (Ok (VStr ""), h))
  ∧
  (∀ self h,
     MultipleGeometryField_to_representation self (VList []) h = (Ok (VStr ""), h)
     ∧ MultipleGeometryField_to_representation self (VDict []) h = (Ok (VStr ""), h)
     ∧ MultipleGeometryField_to_representation self (VInt 0) h = (Ok (VStr ""), h)
     ∧ MultipleGeometryField_to_representation self (VBool false) h
       = (Ok (VStr ""), h))
  ∧
  (∀ self value j h h',
     MultipleGeometryField_to_representation self value h = (Ok j, h') →
     j ≠ VStr "" →
     py_truth value h = (Ok true, h)
     ∧ ∃ text, attr h value "geojson" = Some (VStr text) ∧ json_loads text = Ok j).
Proof.
  split; [|split; [|split]].
  - intros self value h. apply geometry_false_run.
  - intros self l h Hfalse Hinst. apply geometry_false_run.
    unfold py_truth, observe. rewrite <- Hfalse.
    destruct (h !! l) as [[d|a]|] eqn:E; [|done..].
    by destruct (Hinst d).
  - intros self h. repeat split.
  - intros self value j h h' Hrun Hj.
    unfold MultipleGeometryField_to_representation in Hrun. cbv zeta in Hrun.
    unfold mbind, M_bind in Hrun.
    unfold py_truth at 1, observe at 1 in Hrun.
    unfold py_truth, observe.
    destruct (match value with VNone => _ | _ => _ end) as [[|]|e];
      [|by injection Hrun as <- _|done].
    split; [done|].
    unfold getattr, observe at 1 in Hrun.
    destruct (attr h value "geojson") as [[| | | |text| | |]|]; try done.
    exists text. split; [done|].
    unfold observe in Hrun. by injection Hrun as -> _.
Qed.

(** ** Rule D: the display field *)

(** The keyword arguments that reach the base constructor. *)
Lemma display_field_kwargs args kwargs :
  ∃ kw,
    DisplayField_init args kwargs = Field_init args kw
    ∧ odict_get "source" kw = Some (VStr "*")
    ∧ odict_get "read_only" kw = Some (VBool true)
    ∧ ∀ k, k ≠ "source" → k ≠ "read_only" → odict_get k kw = odict_get k kwargs.
Proof.
  eexists. split; [reflexivity|]. split; [|split].
  - rewrite odict_get_set_ne by done. apply odict_get_set_eq.
  - apply odict_get_set_eq.
  - intros k Hs Hr. rewrite !odict_get_set_ne by done. done.
Qed.

(** A read-only field is not among the fields that take input. *)
Lemma writable_fields_skip (fields : list (string * gmap string pyval)) name :
  (∀ g, (name, g) ∈ fields → read_only g = true) →
  name ∉ (writable_fields fields).*1.
Proof.
  unfold writable_fields. induction fields as [|[n g] fields IH]; intros Hro.
  - apply not_elem_of_nil.
  - assert (name ∉ (List.filter (λ f, negb (read_only f.2)) fields).*1) as Hrest.
    { apply IH. intros g' Hg'. apply Hro. by apply list_elem_of_further. }
    cbn [List.filter snd]. destruct (read_only g) eqn:Hg; cbn [negb]; [done|].
    rewrite fmap_cons. apply not_elem_of_cons. split; [|done].
    cbn [fst]. intros ->. rewrite (Hro g) in Hg; [done|apply list_elem_of_here].
Qed.

Lemma fields_unique (fields : list (string * gmap string pyval)) name f g :
  NoDup fields.*1 → (name, f) ∈ fields → (name, g) ∈ fields → f = g.
Proof.
  induction fields as [|[n a] fields IH]; intros Hdup Hf Hg.
  - by apply elem_of_nil in Hf.
  - rewrite fmap_cons in Hdup. apply NoDup_cons in Hdup as [Hfresh Hdup].
    apply elem_of_cons in Hf as [Hf|Hf]; apply elem_of_cons in Hg as [Hg|Hg].
    + congruence.
    + injection Hf as -> ->. destruct Hfresh.
      by apply (list_elem_of_fmap_2 fst) in Hg.
    + injection Hg as -> ->. destruct Hfresh.
      by apply (list_elem_of_fmap_2 fst) in Hf.
    + by apply IH.
Qed.

(** The internal value has no key but the names of the fields that take
    input, and depends on the input under these names only. *)
Lemma to_internal_value_keys fields data name :
  name ∉ (writable_fields fields).*1 →
  name ∉ odict_keys (to_internal_value fields data).
Proof.
  unfold to_internal_value, odict_keys.
  induction (writable_fields fields) as [|[n g] l IH]; intros Hname.
  - apply not_elem_of_nil.
  - rewrite fmap_cons in Hname. apply not_elem_of_cons in Hname as [Hne Hname].
    cbn [omap list_omap fst]. destruct (odict_get n data) as [x|]; cbn.
    + apply not_elem_of_cons. split; [done|by apply IH].
    + by apply IH.
Qed.

Lemma to_internal_value_ignores fields data name x :
  name ∉ (writable_fields fields).*1 →
  to_internal_value fields (odict_set name x data) = to_internal_value fields data.
Proof.
  unfold to_internal_value.
  induction (writable_fields fields) as [|[n g] l IH]; intros Hname; [done|].
  rewrite fmap_cons in Hname. apply not_elem_of_cons in Hname as [Hne Hname].
  cbn [omap list_omap fst]. rewrite odict_get_set_ne by done.
  by rewrite IH.
Qed.

(** C6. The field renders a record as its display string, and nothing
    else.  Every field that was constructed is read-only; so, in a
    serializer whose fields have distinct names, it is not among the
    fields that take input, its name is no key of the internal value,
    and what the input holds under its name is ignored. *)
Theorem display_field :
  (∀ self value s h,
     py_str value h = (Ok s, h) →
     DisplayField_to_representation self value h = (Ok (VStr s), h))
  ∧
  (∀ self l s h,
     object_str h (VRef l) = Ok s →
     DisplayField_to_representation self (VRef l) h = (Ok (VStr s), h))
  ∧
  (stores_kwarg "read_only" →
   ∀ args kwargs f,
     DisplayField_init args kwargs = Ok f →
     f !! "read_only" = Some (VBool true)
     ∧ read_only f = true
     ∧ ∀ fields name data x,
         NoDup fields.*1 →
         (name, f) ∈ fields →
         (name ∉ (writable_fields fields).*1)
         ∧ (name ∉ odict_keys (to_internal_value fields data))
         ∧ to_internal_value fields (odict_set name x data)
           = to_internal_value fields data).
Proof.
  split; [|split].
  - intros self value s h Hs.
    unfold DisplayField_to_representation. by step Hs.
  - intros self l s h Hs.
    unfold DisplayField_to_representation.
    erewrite bind_ok; [reflexivity|].
    unfold py_str, observe. by rewrite <- Hs.
  - intros Hstore args kwargs f Hf.
    destruct (display_field_kwargs args kwargs) as (kw & Heq & _ & Hro & _).
    rewrite Heq in Hf.
    assert (f !! "read_only" = Some (VBool true)) as Hflag by (by eapply Hstore).
    assert (read_only f = true) as Hread by (unfold read_only; by rewrite Hflag).
    split; [done|]. split; [done|].
    intros fields name data x Hdup Hin.
    assert (name ∉ (writable_fields fields).*1) as Hskip.
    { apply writable_fields_skip. intros g Hg.
      by rewrite <- (fields_unique _ _ _ _ Hdup Hin Hg). }
    split; [done|]. split.
    + by apply to_internal_value_keys.
    + by apply to_internal_value_ignores.
Qed.

(** C10. The constructor overwrites the keyword arguments [source] and
    [read_only] with ['*'] and [True], whatever the caller gave, leaves
    the others as they are, and hands the result to the base constructor;
    so every field that was constructed has these two attributes. *)
Theorem display_field_init :
  (∀ args kwargs,
     ∃ kw,
       DisplayField_init args kwargs = Field_init args kw
       ∧ odict_get "source" kw = Some (VStr "*")
       ∧ odict_get "read_only" kw = Some (VBool true)
       ∧ ∀ k, k ≠ "source" → k ≠ "read_only" →
              odict_get k kw = odict_get k kwargs)
  ∧
  (stores_kwarg "source" →
   stores_kwarg "read_only" →
   ∀ args kwargs f,
     DisplayField_init args kwargs = Ok f →
     f !! "source" = Some (VStr "*") ∧ f !! "read_only" = Some (VBool true)).
Proof.
  split; [apply display_field_kwargs|].
  intros Hsrc Hro args kwargs f Hf.
  destruct (display_field_kwargs args kwargs) as (kw & Heq & Hs & Hr & _).
  rewrite Heq in Hf. split; [by eapply Hsrc|by eapply Hro].
Qed.

(** ** Purity *)

Lemma observer_ret {A} (a : A) : observer (mret a).
Proof. by intros h. Qed.

Lemma observer_throw {A} e : observer (throw (A := A) e).
Proof. by intros h. Qed.

Lemma observer_observe {A} (f : heap → res A) : observer (observe f).
Proof. by intros h. Qed.

Lemma observer_bind {A B} (m : M A) (f : A → M B) :
  observer m → (∀ a, observer (f a)) → observer (m ≫= f).
Proof.
  intros Hm Hf h. unfold mbind, M_bind.
  specialize (Hm h). destruct (m h) as [[a|e] h1]; simpl in Hm; subst h1.
  - apply Hf.
  - done.
Qed.

Lemma observer_first {A} (l : list A) : observer (first l).
Proof. destruct l; [apply observer_throw|apply observer_ret]. Qed.

Lemma observer_str_lower v : observer (str_lower v).
Proof. destruct v; first [apply observer_ret|apply observer_throw]. Qed.

Lemma observer_repeatable {A} (m : M A) : observer m → repeatable m.
Proof. intros Hm h. by rewrite Hm. Qed.

(** Breaks a computation into its steps, each of which reads only. *)
Ltac observes :=
  repeat first
    [ apply observer_ret | apply observer_throw | apply observer_observe
    | apply observer_first | apply observer_str_lower
    | apply observer_bind; [|intros ?] ].

Lemma observer_get_links view_name kwargs request :
  observer (get_links view_name kwargs request).
Proof. unfold get_links. observes. Qed.

Lemma observer_LinksField self value :
  observer (LinksField_to_representation self value).
Proof. unfold LinksField_to_representation, getattr, dict_get. observes. Qed.

Lemma observer_RelatedSummaryField self value :
  observer (RelatedSummaryField_to_representation self value).
Proof.
  unfold RelatedSummaryField_to_representation, getattr, getitem, keys_list, py_str.
  observes.
Qed.

Lemma observer_DisplayField self value :
  observer (DisplayField_to_representation self value).
Proof. unfold DisplayField_to_representation, py_str. observes. Qed.

Lemma observer_get_attribute self obj :
  observer (MultipleGeometryField_get_attribute self obj).
Proof. unfold MultipleGeometryField_get_attribute, getattr. observes. Qed.

Lemma observer_MultipleGeometryField self value :
  observer (MultipleGeometryField_to_representation self value).
Proof.
  unfold MultipleGeometryField_to_representation, getattr, py_truth. cbv zeta.
  apply observer_bind; [apply observer_observe|].
  intros [|]; [|apply observer_ret].
  apply observer_bind; [apply observer_observe|].
  intros []; observes.
Qed.

(** [v[k] = x] writes to the dict [v] refers to and to nothing else. *)
Lemma setitem_frame v k x h l :
  (setitem v k x h).2 !! l = h !! l ∨ (setitem v k x h).1 = Ok (VRef l).
Proof.
  unfold setitem. destruct v as [| | | | | | |l0]; try (by left).
  destruct (h !! l0) as [[d|a]|] eqn:E; try (by left).
  destruct (decide (l0 = l)) as [->|Hne]; [by right|left].
  simpl. unfold heap in *. by rewrite lookup_insert_ne.
Qed.

Lemma setitem_instance v k x h l a :
  h !! l = Some (HInst a) → (setitem v k x h).2 !! l = Some (HInst a).
Proof.
  intros Hl. unfold setitem. destruct v as [| | | | | | |l0]; try done.
  destruct (h !! l0) as [[d|a0]|] eqn:E; try done.
  simpl. unfold heap in *. rewrite lookup_insert_ne; [done|congruence].
Qed.


(** The mixin, step by step. *)
Lemma dataset_tag_unfold super_to_representation self obj h :
  DataSetSerializerMixin_to_representation super_to_representation self obj h
  = match super_to_representation self obj h with
    | (Ok result, h1) =>
        match attr h1 self "dataset" with
        | Some dataset => setitem result "dataset" dataset h1
        | None => (Raise AttributeError, h1)
        end
    | (Raise e, h1) => (Raise e, h1)
    end.
Proof.
  unfold DataSetSerializerMixin_to_representation, mbind, M_bind.
  destruct (super_to_representation self obj h) as [[result|e] h1]; [|done].
  unfold getattr, observe.
  destruct (attr h1 self "dataset") as [dataset|]; [|done].
  by destruct (setitem result "dataset" dataset h1) as [[r|e] h2].
Qed.

(** C8, as the code has it. With collaborators that read the store and
    do not write to it, all methods but the mixin's leave the whole store
    as it is, the record and the field they are a method of included,
    and run twice on the same input give the same output.  The mixin
    writes to the dict that the base serializer returned, and to nothing
    else: every instance is as the base serializer left it; and with a
    base serializer that leaves the store as it is and builds a new
    mapping, the mixin leaves the store as it is as well. *)
Theorem rules_are_pure :
  (∀ view_name kwargs request self value obj,
     observer (get_links view_name kwargs request)
     ∧ observer (LinksField_to_representation self value)
     ∧ observer (RelatedSummaryField_to_representation self value)
     ∧ observer (DisplayField_to_representation self value)
     ∧ observer (MultipleGeometryField_get_attribute self obj)
     ∧ observer (MultipleGeometryField_to_representation self value))
  ∧
  (∀ view_name kwargs request self value obj,
     repeatable (get_links view_name kwargs request)
     ∧ repeatable (LinksField_to_representation self value)
     ∧ repeatable (RelatedSummaryField_to_representation self value)
     ∧ repeatable (DisplayField_to_representation self value)
     ∧ repeatable (MultipleGeometryField_get_attribute self obj)
     ∧ repeatable (MultipleGeometryField_to_representation self value))
  ∧
  (∀ super_to_representation self obj h l a,
     (super_to_representation self obj h).2 !! l = Some (HInst a) →
     (DataSetSerializerMixin_to_representation super_to_representation self obj h).2
       !! l = Some (HInst a))
  ∧
  (∀ super_to_representation self obj h l,
     (DataSetSerializerMixin_to_representation super_to_representation self obj h).2
       !! l = (super_to_representation self obj h).2 !! l
     ∨ (DataSetSerializerMixin_to_representation super_to_representation self obj h).1
       = Ok (VRef l))
  ∧
  (∀ super_to_representation self obj,
     observer (super_to_representation self obj) →
     (∀ h l, (super_to_representation self obj h).1 ≠ Ok (VRef l)) →
     observer (DataSetSerializerMixin_to_representation
                 super_to_representation self obj)
     ∧ repeatable (DataSetSerializerMixin_to_representation
                     super_to_representation self obj)).
Proof.
  assert (∀ view_name kwargs request self value obj,
     observer (get_links view_name kwargs request)
     ∧ observer (LinksField_to_representation self value)
     ∧ observer (RelatedSummaryField_to_representation self value)
     ∧ observer (DisplayField_to_representation self value)
     ∧ observer (MultipleGeometryField_get_attribute self obj)
     ∧ observer (MultipleGeometryField_to_representation self value)) as Hobs.
  { intros. repeat apply conj.
    - apply observer_get_links.
    - apply observer_LinksField.
    - apply observer_RelatedSummaryField.
    - apply observer_DisplayField.
    - apply observer_get_attribute.
    - apply observer_MultipleGeometryField. }
  split; [exact Hobs|]. split; [|split; [|split]].
  - intros view_name kwargs request self value obj.
    destruct (Hobs view_name kwargs request self value obj)
      as (H1 & H2 & H3 & H4 & H5 & H6).
    repeat apply conj; by apply observer_repeatable.
  - intros base self obj h l a. rewrite dataset_tag_unfold.
    destruct (base self obj h) as [[result|e] h1]; simpl; [|done].
    destruct (attr h1 self "dataset") as [dataset|]; [|done].
    apply setitem_instance.
  - intros base self obj h l. rewrite dataset_tag_unfold.
    destruct (base self obj h) as [[result|e] h1]; simpl; [|by left].
    destruct (attr h1 self "dataset") as [dataset|]; [|by left].
    apply setitem_frame.
  - intros base self obj Hbase Hfresh.
    assert (observer (DataSetSerializerMixin_to_representation base self obj))
      as Hmix; [|split; [exact Hmix|by apply observer_repeatable]].
    intros h. rewrite dataset_tag_unfold.
    specialize (Hbase h). specialize (Hfresh h).
    destruct (base self obj h) as [[result|e] h1]; simpl in *; subst h1; [|done].
    destruct (attr h self "dataset") as [dataset|]; [|done].
    unfold setitem. destruct result as [| | | | | | |l0]; try done.
    by destruct (Hfresh l0).
Qed.

End Properties.

(** * The properties on the Widget/Part store *)

Import Scenario.

Lemma demo_stores_kwargs :
  stores_kwarg (collab := demo) "source" ∧ stores_kwarg (collab := demo) "read_only".
Proof.
  split; intros args kwargs f x Hf Hx; cbn in Hf; unfold demo_Field_init in Hf;
    destruct args; try discriminate; rewrite ?Hx in Hf; cbn in Hf.
  - destruct (default (VBool false) (odict_get "read_only" kwargs)) as [|[|]| | | | | |];
      destruct (default (VBool false) (odict_get "write_only" kwargs))
        as [|[|]| | | | | |];
      try discriminate; injection Hf as <-; reflexivity.
  - destruct x as [|[|]| | | | | |];
      destruct (default (VBool false) (odict_get "write_only" kwargs))
        as [|[|]| | | | | |];
      try discriminate; injection Hf as <-; reflexivity.
Qed.

Lemma self_link_envelope_witness :
  get_links (collab := demo) "widget-detail" VNone VNone store
  = (Ok (VDict [("self", VDict [("href", VStr "http://testserver/widgets/42/")])]),
     store)
  ∧ LinksField_to_representation (collab := demo) (VRef serializer) (VRef widget) store
    = (Ok (VDict [("self", VDict [("href", VStr "http://testserver/widgets/42/")])]),
       store).
Proof.
  split.
  - apply (proj1 (self_link_envelope (collab := demo))).
    vm_compute. reflexivity.
  - apply (proj2 (self_link_envelope (collab := demo)) _ _
             [("request", VRef request)] (VStr "widget-detail")).
    + exists (VRef context). split; vm_compute; reflexivity.
    + vm_compute. reflexivity.
    + vm_compute. reflexivity.
Defined.

Lemma related_manager_parts :
  related_manager store (VRef parts) "Part" (VInt 42) [("parent_id", VRef widget)].
Proof.
  exists (VRef Part), (VRef widget), (VRef parts_filters).
  repeat apply conj; vm_compute; reflexivity.
Defined.

Lemma related_manager_orphans :
  related_manager store (VRef orphans) "Part" (VInt 42) [].
Proof.
  exists (VRef Part), (VRef widget), (VRef no_filters).
  repeat apply conj; vm_compute; reflexivity.
Defined.

Lemma related_manager_gadgets :
  related_manager store (VRef gadgets) "Gadget" (VInt 42) [("parent_id", VRef widget)].
Proof.
  exists (VRef Gadget), (VRef widget), (VRef parts_filters).
  repeat apply conj; vm_compute; reflexivity.
Defined.

Lemma field_context_serializer :
  field_context store (VRef serializer) [("request", VRef request)].
Proof. exists (VRef context). split; vm_compute; reflexivity. Defined.

Lemma field_context_other_serializer :
  field_context store (VRef other_serializer) [("request", VRef request)].
Proof. exists (VRef context). split; vm_compute; reflexivity. Defined.

Lemma related_manager_spares :
  related_manager store (VRef spares) "SparePart" (VInt 42)
    [("parent_id", VRef widget)].
Proof.
  exists (VRef SparePart), (VRef widget), (VRef parts_filters).
  repeat apply conj; vm_compute; reflexivity.
Defined.

Lemma related_manager_classes :
  related_manager store (VRef classes) "École" (VInt 42) [("parent_id", VRef widget)].
Proof.
  exists (VRef Ecole), (VRef widget), (VRef parts_filters).
  repeat apply conj; vm_compute; reflexivity.
Defined.

(** The widget of primary key 42 has no spare parts: the count is 0,
    the route is [sparepart-list] and the link ends with
    [?parent_id=42]. *)
Lemma related_summary_witness :
  RelatedSummaryField_to_representation (collab := demo)
    (VRef serializer) (VRef spares) store
  = (Ok (VDict [("count", VInt 0);
                ("href", VStr "http://testserver/spareparts/?parent_id=42")]),
     store)
  ∧ RelatedSummaryField_to_representation (collab := demo)
      (VRef serializer) (VRef classes) store
    = (Ok (VDict [("count", VInt 0);
                  ("href", VStr "http://testserver/ecoles/?parent_id=42")]),
       store)
  ∧ py_lower (collab := demo) "SparePart" = "sparepart"
  ∧ py_lower (collab := demo) "École" = "école"
  ∧ int_of_text "42" = Some 42%Z.
Proof.
  pose proof (related_summary (collab := demo)
                (VRef serializer) (VRef spares) store (VInt 0) "SparePart" (VInt 42)
                "parent_id" (VRef widget) [("request", VRef request)]
                (VRef request) "http://testserver/spareparts/" "42"
                eq_refl related_manager_spares field_context_serializer
                eq_refl eq_refl eq_refl) as (Hrun & _ & _ & Hint & _).
  split; [exact Hrun|]. split.
  - apply (proj1 (related_summary (collab := demo)
                    (VRef serializer) (VRef classes) store (VInt 0) "École" (VInt 42)
                    "parent_id" (VRef widget) [("request", VRef request)]
                    (VRef request) "http://testserver/ecoles/" "42"
                    eq_refl related_manager_classes field_context_serializer
                    eq_refl eq_refl eq_refl)).
  - split; [vm_compute; reflexivity|].
    split; [vm_compute; reflexivity|].
    exact (Hint 42%Z eq_refl).
Defined.

Lemma related_summary_no_filter_witness :
  RelatedSummaryField_to_representation (collab := demo)
    (VRef serializer) (VRef orphans) store
  = (Raise IndexError, store).
Proof.
  apply (related_summary_no_filter (collab := demo)
           (VRef serializer) (VRef orphans) store (VInt 0) "Part" (VInt 42)
           [("request", VRef request)] (VRef request) "http://testserver/parts/");
    first [ exact related_manager_orphans | exact field_context_serializer
          | vm_compute; reflexivity ].
Defined.

(** C1 fails: with no filter key the exception is [IndexError], which
    is not [MalformedFilterError]. *)
Lemma related_summary_no_filter_not_malformed :
  (RelatedSummaryField_to_representation (collab := demo)
     (VRef serializer) (VRef orphans) store).1
  = Raise IndexError
  ∧ (RelatedSummaryField_to_representation (collab := demo)
       (VRef serializer) (VRef orphans) store).1
    ≠ Raise MalformedFilterError.
Proof. split; [vm_compute; reflexivity|vm_compute; discriminate]. Qed.

(** No route is called [gadget-list] or [gadget-detail], and the text
    of the broken point is not JSON. *)
Lemma collaborator_failures_propagate_witness :
  get_links (collab := demo) "gadget-detail" VNone VNone store
  = (Raise ResolutionError, store)
  ∧ LinksField_to_representation (collab := demo)
      (VRef other_serializer) (VRef widget) store
    = (Raise ResolutionError, store)
  ∧ RelatedSummaryField_to_representation (collab := demo)
      (VRef serializer) (VRef gadgets) store
    = (Raise ResolutionError, store)
  ∧ MultipleGeometryField_to_representation (collab := demo)
      (VRef serializer) (VRef broken_point) store
    = (Raise DecodeError, store).
Proof.
  pose proof (collaborator_failures_propagate (collab := demo))
    as (Hlinks & Hfield & _ & Hsummary & Hgeometry & _).
  repeat apply conj.
  - apply Hlinks. vm_compute. reflexivity.
  - apply (Hfield _ _ [("request", VRef request)] (VStr "gadget-detail")).
    + exact field_context_other_serializer.
    + vm_compute. reflexivity.
    + vm_compute. reflexivity.
  - apply (Hsummary _ _ (VInt 0) (VRef Gadget) "Gadget"
             [("request", VRef request)] (VRef request)).
    + vm_compute. reflexivity.
    + vm_compute. reflexivity.
    + vm_compute. reflexivity.
    + exact field_context_serializer.
    + reflexivity.
    + vm_compute. reflexivity.
  - apply (Hgeometry _ _ "POINT (4.9 52.3)").
    + vm_compute. reflexivity.
    + vm_compute. reflexivity.
    + vm_compute. reflexivity.
Defined.

(** The dict at [rendered] gets the key [dataset]; the second serializer
    then overwrites the name. *)
Lemma dataset_tag_witness :
  DataSetSerializerMixin_to_representation shared_base
    (VRef serializer) (VRef widget) store
  = (Ok (VRef rendered),
     <[rendered := HDict [("id", VInt 5); ("dataset", VStr "bag")]]> store)
  ∧ DataSetSerializerMixin_to_representation
      (λ _ o, DataSetSerializerMixin_to_representation shared_base (VRef serializer) o)
      (VRef other_serializer) (VRef widget) store
    = (Ok (VRef rendered),
       <[rendered := HDict [("id", VInt 5); ("dataset", VStr "brk")]]> store)
  ∧ DataSetSerializerMixin_to_representation fresh_base
      (VRef serializer) (VRef widget) store
    = (Ok (VDict [("id", VInt 5); ("dataset", VStr "bag")]), store).
Proof.
  pose proof (proj1 dataset_tag shared_base (VRef serializer) (VRef widget)
                store rendered store [("id", VInt 5)] (VStr "bag")
                eq_refl eq_refl eq_refl)
    as (Hrun & _ & _ & _ & Htwice).
  split; [exact Hrun|]. split.
  - exact (Htwice (VRef other_serializer) (VStr "brk") eq_refl).
  - exact (proj2 dataset_tag fresh_base (VRef serializer) (VRef widget)
             store store [("id", VInt 5)] (VStr "bag") eq_refl eq_refl).
Defined.

(** C3 fails: the mapping that came in is the object that goes out, and
    it has been changed where it is. *)
Lemma dataset_tag_mutates_input :
  (DataSetSerializerMixin_to_representation shared_base
     (VRef serializer) (VRef widget) store).1
  = Ok (VRef rendered)
  ∧ store !! rendered = Some (HDict [("id", VInt 5)])
  ∧ (DataSetSerializerMixin_to_representation shared_base
       (VRef serializer) (VRef widget) store).2 !! rendered
    = Some (HDict [("id", VInt 5); ("dataset", VStr "bag")])
  ∧ (DataSetSerializerMixin_to_representation shared_base
       (VRef serializer) (VRef widget) store).2 !! rendered
    ≠ store !! rendered.
Proof.
  repeat apply conj; vm_compute; first [reflexivity|discriminate].
Qed.

(** The widget without a geometry, and the widget at (4.9, 52.3). *)
Lemma geometry_passthrough_witness :
  (MultipleGeometryField_get_attribute (VRef serializer) (VRef bare_widget) store
   = (Ok VNone, store)
   ∧ MultipleGeometryField_to_representation (collab := demo)
       (VRef serializer) VNone store
     = (Ok (VStr ""), store))
  ∧
  (MultipleGeometryField_get_attribute (VRef serializer) (VRef widget) store
   = (Ok (VRef point), store)
   ∧ MultipleGeometryField_to_representation (collab := demo)
       (VRef serializer) (VRef point) store
     = (Ok (VDict [("type", VStr "Point");
                   ("coordinates", VList [VFloat 49 (-1); VFloat 523 (-1)])]),
        store)).
Proof.
  split.
  - apply (proj1 (geometry_passthrough (collab := demo))).
    vm_compute. reflexivity.
  - apply (proj2 (geometry_passthrough (collab := demo)) _ _ _ point_text).
    + vm_compute. reflexivity.
    + vm_compute. reflexivity.
    + vm_compute. reflexivity.
    + vm_compute. reflexivity.
Defined.

(** C5 fails: the hollow widget has a geometry, whose GeoJSON text
    decodes to a mapping with [type] and [coordinates], and is rendered
    as the empty string. *)
Lemma geometry_present_but_empty :
  MultipleGeometryField_get_attribute (VRef serializer) (VRef hollow_widget) store
  = (Ok (VRef empty_point), store)
  ∧ attr store (VRef empty_point) "geojson" = Some (VStr empty_point_text)
  ∧ json_loads (Collaborators := demo) empty_point_text
    = Ok (VDict [("type", VStr "Point"); ("coordinates", VList [])])
  ∧ MultipleGeometryField_to_representation (collab := demo)
      (VRef serializer) (VRef empty_point) store
    = (Ok (VStr ""), store)
  ∧ MultipleGeometryField_to_representation (collab := demo)
      (VRef serializer) (VRef empty_point) store
    ≠ (Ok (VDict [("type", VStr "Point"); ("coordinates", VList [])]), store).
Proof.
  repeat apply conj; vm_compute; first [reflexivity|discriminate].
Qed.

(** The empty point is not [None], and is false. *)
Lemma geometry_truth_test_witness :
  MultipleGeometryField_to_representation (collab := demo)
    (VRef serializer) (VRef empty_point) store
  = (Ok (VStr ""), store)
  ∧ py_truth (collab := demo) (VRef point) store = (Ok true, store).
Proof.
  pose proof (geometry_truth_test (collab := demo)) as (Hfalse & _ & _ & Htrue).
  split.
  - apply Hfalse. vm_compute. reflexivity.
  - apply (Htrue (VRef serializer) (VRef point) point_json store store).
    + vm_compute. reflexivity.
    + discriminate.
Defined.

(** The widget is displayed as [Widget #7]; a display field asked to be
    writable is read-only all the same, and what is sent for it does not
    reach the internal value. *)
Lemma display_field_witness :
  DisplayField_to_representation (collab := demo) (VRef serializer) (VRef widget) store
  = (Ok (VStr "Widget #7"), store)
  ∧ DisplayField_init (collab := demo) [] [("read_only", VBool false)]
    = Ok display_attrs
  ∧ display_attrs !! "read_only" = Some (VBool true)
  ∧ to_internal_value widget_fields
      (odict_set "_display" (VStr "Gadget #8") [("name", VStr "Widget")])
    = to_internal_value widget_fields [("name", VStr "Widget")]
  ∧ to_internal_value widget_fields
      [("name", VStr "Widget"); ("_display", VStr "Gadget #8")]
    = [("name", VStr "Widget")].
Proof.
  pose proof (display_field (collab := demo)) as (_ & Hstr & Hinit).
  pose proof (Hinit (proj2 demo_stores_kwargs) [] [("read_only", VBool false)]
                display_attrs eq_refl) as (Hflag & _ & Hinput).
  split; [|split; [|split; [|split]]].
  - apply Hstr. vm_compute. reflexivity.
  - vm_compute. reflexivity.
  - exact Hflag.
  - apply Hinput.
    + apply (bool_decide_unpack _). vm_compute. exact I.
    + apply list_elem_of_further, list_elem_of_here.
  - vm_compute. reflexivity.
Defined.

(** A caller's [source] and [read_only] are overwritten. *)
Lemma display_field_init_witness :
  DisplayField_init (collab := demo) []
    [("source", VStr "name"); ("read_only", VBool false)]
  = Ok display_attrs
  ∧ display_attrs !! "source" = Some (VStr "*")
  ∧ display_attrs !! "read_only" = Some (VBool true).
Proof.
  split.
  - vm_compute. reflexivity.
  - apply (proj2 (display_field_init (collab := demo))
             (proj1 demo_stores_kwargs) (proj2 demo_stores_kwargs)
             [] [("source", VStr "name"); ("read_only", VBool false)]).
    vm_compute. reflexivity.
Defined.

(** The mixin over a base serializer that builds a new mapping leaves
    the store as it is; over the one that hands out the dict at
    [rendered], it leaves the widget as it is. *)
Lemma rules_are_pure_witness :
  (DataSetSerializerMixin_to_representation fresh_base
     (VRef serializer) (VRef widget) store).2
  = store
  ∧ (DataSetSerializerMixin_to_representation shared_base
       (VRef serializer) (VRef widget) store).2 !! widget
    = Some (inst [("pk", VInt 42); ("geometrie", VRef point)]).
Proof.
  pose proof (rules_are_pure (collab := demo)) as (_ & _ & Hinst & _ & Hfresh).
  split.
  - apply (Hfresh fresh_base (VRef serializer) (VRef widget)).
    + intros h. reflexivity.
    + intros h l. discriminate.
  - apply Hinst. vm_compute. reflexivity.
Defined.

(** * Further properties of the module *)

Section Further.
Context `{collab : Collaborators} `{views : ViewSet}.

(** ** The self link of a detail view *)

(** The computation up to the lookup of the primary key. *)
Lemma self_link_run self obj ctx view pk_name h :
  field_context h self ctx →
  odict_get "view" ctx = Some view →
  view_of_model h view pk_name →
  SelfLinkSerializerMixin_get__links self obj h
  = (pk_value ← getattr_named obj pk_name;
     href ← observe (λ h, reverse_action h view "detail" [pk_value]);
     mret (VDict [("self", VDict [("href", href)])])) h.
Proof.
  intros (c & Hc & Hctx) Hview (queryset & model & meta & pk & Hq & Hm & Hmeta & Hpk & Hn).
  unfold SelfLinkSerializerMixin_get__links.
  step Hc. erewrite bind_ok by (by eapply getitem_ok).
  step Hq. step Hm. step Hmeta. step Hpk. step Hn. done.
Qed.

(** X1. The link of a record is the detail route of the view set, taken
    at the value of the attribute that the model names as its primary
    key field, whatever that name is. *)
Theorem self_link_of_view self obj ctx view pk_name pk_value href h :
  field_context h self ctx →
  odict_get "view" ctx = Some view →
  view_of_model h view (VStr pk_name) →
  attr h obj pk_name = Some pk_value →
  reverse_action h view "detail" [pk_value] = Ok href →
  SelfLinkSerializerMixin_get__links self obj h
  = (Ok (VDict [("self", VDict [("href", href)])]), h).
Proof.
  intros Hctx Hview Hmodel Hpk Href.
  rewrite (self_link_run _ _ _ _ _ _ Hctx Hview Hmodel).
  unfold getattr_named. step Hpk. by step Href.
Qed.

(** X2. The self link fails with [KeyError] when the context has no
    view, with [AttributeError] when the record has no attribute of the
    name of the model's primary key field, with [TypeError] when that
    name is not a string, and with the exception of the view set when
    the route does not resolve; the store is left as it was. *)
Theorem self_link_of_view_errors :
  (∀ self obj ctx h,
     field_context h self ctx →
     odict_get "view" ctx = None →
     SelfLinkSerializerMixin_get__links self obj h = (Raise KeyError, h))
  ∧
  (∀ self obj ctx view pk_name h,
     field_context h self ctx →
     odict_get "view" ctx = Some view →
     view_of_model h view (VStr pk_name) →
     attr h obj pk_name = None →
     SelfLinkSerializerMixin_get__links self obj h = (Raise AttributeError, h))
  ∧
  (∀ self obj ctx view pk_name h,
     field_context h self ctx →
     odict_get "view" ctx = Some view →
     view_of_model h view pk_name →
     (∀ n, pk_name ≠ VStr n) →
     SelfLinkSerializerMixin_get__links self obj h = (Raise TypeError, h))
  ∧
  (∀ self obj ctx view pk_name pk_value e h,
     field_context h self ctx →
     odict_get "view" ctx = Some view →
     view_of_model h view (VStr pk_name) →
     attr h obj pk_name = Some pk_value →
     reverse_action h view "detail" [pk_value] = Raise e →
     SelfLinkSerializerMixin_get__links self obj h = (Raise e, h)).
Proof.
  split; [|split; [|split]].
  - intros self obj ctx h (c & Hc & Hctx) Hview.
    unfold SelfLinkSerializerMixin_get__links. step Hc.
    erewrite bind_raise; [reflexivity|].
    unfold getitem, observe. by rewrite Hctx, Hview.
  - intros self obj ctx view pk_name h Hctx Hview Hmodel Hpk.
    rewrite (self_link_run _ _ _ _ _ _ Hctx Hview Hmodel).
    erewrite bind_raise; [reflexivity|].
    unfold getattr_named, getattr, observe. by rewrite Hpk.
  - intros self obj ctx view pk_name h Hctx Hview Hmodel Hname.
    rewrite (self_link_run _ _ _ _ _ _ Hctx Hview Hmodel).
    erewrite bind_raise; [reflexivity|].
    destruct pk_name; try done. by destruct (Hname s).
  - intros self obj ctx view pk_name pk_value e h Hctx Hview Hmodel Hpk He.
    rewrite (self_link_run _ _ _ _ _ _ Hctx Hview Hmodel).
    unfold getattr_named. step Hpk. by step He.
Qed.

(** X3. Where the hyperlinked field and the view set resolve a record to
    the same URL, [LinksField.to_representation] and
    [SelfLinkSerializerMixin.get__links] render the same envelope. *)
Theorem self_links_agree field self obj fctx ctx view_name view pk_name pk_value u h :
  field_context h field fctx →
  attr h field "view_name" = Some view_name →
  get_url h field obj view_name (default VNone (odict_get "request" fctx)) VNone
  = Ok u →
  field_context h self ctx →
  odict_get "view" ctx = Some view →
  view_of_model h view (VStr pk_name) →
  attr h obj pk_name = Some pk_value →
  reverse_action h view "detail" [pk_value] = Ok u →
  LinksField_to_representation field obj h
  = SelfLinkSerializerMixin_get__links self obj h.
Proof.
  intros (c & Hc & Hfctx) Hname Hurl Hctx Hview Hmodel Hpk Haction.
  rewrite (self_link_run _ _ _ _ _ _ Hctx Hview Hmodel).
  unfold getattr_named. step Hpk. step Haction.
  unfold LinksField_to_representation.
  step Hc. erewrite bind_ok by (by apply dict_get_ok).
  step Hname. by step Hurl.
Qed.

(** ** The summary of a related collection, beyond one filter key *)

(** X4. Of several filter keys the first in the order of the mapping is
    the one in the link; the others, and the values of all of them, play
    no part, and nothing is raised. *)
Theorem related_summary_first_key self value h c name pk k x rest ctx request url
    pk_text :
  count h value = Ok c →
  related_manager h value name pk ((k, x) :: rest) →
  field_context h self ctx →
  odict_get "request" ctx = Some request →
  reverse (py_lower name +:+ "-list") VNone request = Ok url →
  py_format pk h = (Ok pk_text, h) →
  RelatedSummaryField_to_representation self value h
  = (Ok (VDict [("count", c);
                ("href", VStr (url +:+ "?" +:+ k +:+ "=" +:+ pk_text))]), h).
Proof.
  intros Hc Hman Hctx Hreq Hurl Hpk.
  rewrite (related_summary_run _ _ _ _ _ _ _ _ _ _ Hc Hman Hctx Hreq Hurl).
  cbn [odict_keys fmap list_fmap fst first].
  erewrite bind_ok by reflexivity. cbn beta.
  by erewrite bind_ok by exact Hpk.
Qed.

(** X5. A context without a request: the hyperlinked field goes on with
    [None] for the request and renders what [get_url] then returns,
    whereas the summary field fails with [KeyError], whatever the route
    would resolve to. *)
Theorem missing_request :
  (∀ self value ctx view_name href h,
     field_context h self ctx →
     odict_get "request" ctx = None →
     attr h self "view_name" = Some view_name →
     get_url h self value view_name VNone VNone = Ok href →
     LinksField_to_representation self value h
     = (Ok (VDict [("self", VDict [("href", href)])]), h))
  ∧
  (∀ self value c model name ctx h,
     count h value = Ok c →
     attr h value "model" = Some model →
     attr h model "__name__" = Some (VStr name) →
     field_context h self ctx →
     odict_get "request" ctx = None →
     RelatedSummaryField_to_representation self value h = (Raise KeyError, h)).
Proof.
  split.
  - intros self value ctx view_name href h (c & Hc & Hctx) Hreq Hname Hurl.
    unfold LinksField_to_representation.
    step Hc. erewrite bind_ok by (by apply dict_get_ok).
    rewrite Hreq. cbn [default]. step Hname. by step Hurl.
  - intros self value c model name ctx h Hc Hm Hmodel (cx & Hcx & Hctx) Hreq.
    unfold RelatedSummaryField_to_representation.
    step Hc. step Hm. step Hmodel. unfold str_lower.
    erewrite bind_ok by reflexivity. cbn beta.
    step Hcx. erewrite bind_raise; [reflexivity|].
    unfold getitem, observe. by rewrite Hctx, Hreq.
Qed.

(** X6. The primary key goes into the link as [format] renders it and
    as it is: [None] for an owner that has none yet, a string unquoted,
    whatever characters it holds, an integer as its numeral; and an
    integer with more digits than the limit of the interpreter makes the
    method fail with [ValueError]. *)
Theorem related_summary_pk_text self value h c name pk k x rest ctx request url :
  count h value = Ok c →
  related_manager h value name pk ((k, x) :: rest) →
  field_context h self ctx →
  odict_get "request" ctx = Some request →
  reverse (py_lower name +:+ "-list") VNone request = Ok url →
  (pk = VNone →
   RelatedSummaryField_to_representation self value h
   = (Ok (VDict [("count", c); ("href", VStr (url +:+ "?" +:+ k +:+ "=None"))]), h))
  ∧ (∀ s, pk = VStr s →
     RelatedSummaryField_to_representation self value h
     = (Ok (VDict [("count", c); ("href", VStr (url +:+ "?" +:+ k +:+ "=" +:+ s))]),
        h))
  ∧ (∀ z, pk = VInt z →
     (int_max_str_digits = 0
      ∨ String.length (int_text (Z.abs z)) ≤ int_max_str_digits)%nat →
     RelatedSummaryField_to_representation self value h
     = (Ok (VDict [("count", c);
                   ("href", VStr (url +:+ "?" +:+ k +:+ "=" +:+ int_text z))]), h)
     ∧ int_of_text (int_text z) = Some z)
  ∧ (∀ z, pk = VInt z →
     (0 < int_max_str_digits < String.length (int_text (Z.abs z)))%nat →
     RelatedSummaryField_to_representation self value h = (Raise ValueError, h)).
Proof.
  intros Hc Hman Hctx Hreq Hurl.
  rewrite (related_summary_run _ _ _ _ _ _ _ _ _ _ Hc Hman Hctx Hreq Hurl).
  cbn [odict_keys fmap list_fmap fst first].
  erewrite bind_ok by reflexivity. cbn beta.
  split; [intros ->; reflexivity|]. split; [intros s ->; reflexivity|]. split.
  - intros z -> Hlimit. split; [|apply int_of_text_int_text].
    erewrite bind_ok; [reflexivity|].
    unfold py_format, observe, scalar_str, int_str. cbn [default].
    destruct (_ && _) eqn:Hover; [|done].
    apply andb_true_iff in Hover as [Hpos%Nat.ltb_lt Hlong%Nat.ltb_lt]. lia.
  - intros z -> [Hpos Hlong]. erewrite bind_raise; [reflexivity|].
    unfold py_format, observe, scalar_str, int_str. cbn [default].
    apply Nat.ltb_lt in Hpos, Hlong. by rewrite Hpos, Hlong.
Qed.

(** ** Where exceptions come from *)

(** X7. For a manager with its model, its owner and its filter mapping,
    and a context with the request, the summary field fails only where
    [count()] fails, where the route of the lower-cased model name does
    not resolve, where the filter mapping has no key ([IndexError]) or
    where the primary key of the owner cannot be formatted; and the
    exception is that of the step that failed, after the steps before it
    went through. *)
Theorem related_summary_exceptions self value h name pk filters ctx request e :
  related_manager h value name pk filters →
  field_context h self ctx →
  odict_get "request" ctx = Some request →
  (RelatedSummaryField_to_representation self value h).1 = Raise e →
  count h value = Raise e
  ∨ (∃ c, count h value = Ok c
          ∧ reverse (py_lower name +:+ "-list") VNone request = Raise e)
  ∨ (∃ c url, count h value = Ok c
              ∧ reverse (py_lower name +:+ "-list") VNone request = Ok url
              ∧ ((filters = [] ∧ e = IndexError)
                 ∨ (filters ≠ [] ∧ py_format pk h = (Raise e, h)))).
Proof.
  intros Hman Hctx Hreq H.
  destruct (count h value) as [c|e'] eqn:Hc.
  - right. pose proof Hman as (model & _ & _ & Hm & Hn & _).
    destruct (reverse (py_lower name +:+ "-list") VNone request) as [url|e'] eqn:Hurl.
    + right. exists c, url. split; [done|]. split; [done|].
      rewrite (related_summary_run _ _ _ _ _ _ _ _ _ _ Hc Hman Hctx Hreq Hurl) in H.
      destruct filters as [|[k x] filters]; [left|right].
      * split; [done|]. cbn [odict_keys fmap list_fmap first] in H.
        erewrite bind_raise in H by reflexivity. simpl in H. congruence.
      * split; [done|]. revert H.
        cbn [odict_keys fmap list_fmap fst first].
        erewrite bind_ok by reflexivity. cbn beta.
        unfold mbind, M_bind, py_format, observe.
        destruct (default _ _) as [text|e']; simpl; congruence.
    + left. exists c. split; [done|].
      rewrite (related_summary_route _ _ _ _ _ _ _ _ Hc Hm Hn Hctx Hreq) in H.
      erewrite bind_raise in H by (by apply observe_eq). simpl in H. congruence.
  - left. unfold RelatedSummaryField_to_representation in H.
    erewrite bind_raise in H by (by apply observe_eq). simpl in H. congruence.
Qed.

(** X8. For a value that has a [geojson], the geometry field fails only
    where the truth test of the value fails, where the [geojson] is no
    text ([TypeError]) or where the decoder fails on that text; and the
    exception is that of the step that failed. *)
Theorem geometry_exceptions self value g h e :
  attr h value "geojson" = Some g →
  (MultipleGeometryField_to_representation self value h).1 = Raise e →
  object_truth h value = Raise e
  ∨ (object_truth h value = Ok true ∧ (∀ text, g ≠ VStr text) ∧ e = TypeError)
  ∨ (object_truth h value = Ok true
     ∧ ∃ text, g = VStr text ∧ json_loads text = Raise e).
Proof.
  intros Hg H.
  assert (py_truth value h = (object_truth h value, h)) as Htruth.
  { unfold py_truth, observe. destruct value as [| | | | | | |l]; try done.
    simpl in Hg. by destruct (h !! l) as [[d|a]|]. }
  destruct (object_truth h value) as [[|]|e'] eqn:Hobj.
  - right. unfold MultipleGeometryField_to_representation in H. cbv zeta in H.
    erewrite bind_ok in H by exact Htruth. cbv beta iota in H.
    erewrite bind_ok in H by (by apply getattr_ok). cbv beta in H.
    destruct g as [| | | |text| | |]; simpl in H;
      try (left; repeat split; [done|congruence]).
    right. split; [done|]. exists text. split; [done|].
    destruct (json_loads text); simpl in H; congruence.
  - rewrite geometry_false_run in H by exact Htruth. done.
  - left. unfold MultipleGeometryField_to_representation in H. cbv zeta in H.
    erewrite bind_raise in H by exact Htruth. simpl in H. congruence.
Qed.

(** ** Values that are not geometries *)

Lemma geometry_no_geojson self value h :
  py_truth value h = (Ok true, h) →
  attr h value "geojson" = None →
  MultipleGeometryField_to_representation self value h = (Raise AttributeError, h).
Proof.
  intros Htruth Hnone.
  unfold MultipleGeometryField_to_representation. cbv zeta. step Htruth.
  erewrite bind_raise; [reflexivity|].
  unfold getattr, observe. by rewrite Hnone.
Qed.

(** X9. A record without the attribute [geometrie] makes
    [get_attribute] fail with [AttributeError]; and a true value without
    the attribute [geojson] makes [to_representation] fail with
    [AttributeError]: so does a text that is not empty, a number that is
    not zero, and [True]. *)
Theorem geometry_not_an_object :
  (∀ self obj h,
     attr h obj "geometrie" = None →
     MultipleGeometryField_get_attribute self obj h = (Raise AttributeError, h))
  ∧
  (∀ self value h,
     py_truth value h = (Ok true, h) →
     attr h value "geojson" = None →
     MultipleGeometryField_to_representation self value h
     = (Raise AttributeError, h))
  ∧
  (∀ self s h,
     s ≠ "" →
     MultipleGeometryField_to_representation self (VStr s) h
     = (Raise AttributeError, h))
  ∧
  (∀ self z h,
     z ≠ 0%Z →
     MultipleGeometryField_to_representation self (VInt z) h
     = (Raise AttributeError, h))
  ∧
  (∀ self h,
     MultipleGeometryField_to_representation self (VBool true) h
     = (Raise AttributeError, h)).
Proof.
  split; [|split; [|split; [|split]]].
  - intros self obj h Hnone.
    unfold MultipleGeometryField_get_attribute, getattr, observe. by rewrite Hnone.
  - intros self value h. apply geometry_no_geojson.
  - intros self s h Hs. apply geometry_no_geojson; [|done].
    unfold py_truth, observe.
    destruct (String.eqb s "") eqn:E; [|done].
    by apply String.eqb_eq in E.
  - intros self z h Hz. apply geometry_no_geojson; [|done].
    unfold py_truth, observe.
    destruct (z =? 0)%Z eqn:E; [|done].
    by apply Z.eqb_eq in E.
  - intros self h. by apply geometry_no_geojson.
Qed.

(** ** The dataset tag, when it cannot be set *)

(** X10. When the serializer has no [dataset], the mixin fails with
    [AttributeError] and the mapping of the base serializer is not
    written to; when the base serializer returned no mapping ([None], an
    instance), the mixin fails with [TypeError].  In both cases the store
    is as the base serializer left it. *)
Theorem dataset_tag_errors :
  (∀ super_to_representation self obj result h h1,
     super_to_representation self obj h = (Ok result, h1) →
     attr h1 self "dataset" = None →
     DataSetSerializerMixin_to_representation super_to_representation self obj h
     = (Raise AttributeError, h1))
  ∧
  (∀ super_to_representation self obj result dataset h h1,
     super_to_representation self obj h = (Ok result, h1) →
     attr h1 self "dataset" = Some dataset →
     as_mapping h1 result = None →
     DataSetSerializerMixin_to_representation super_to_representation self obj h
     = (Raise TypeError, h1)).
Proof.
  split.
  - intros base self obj result h h1 Hbase Hnone.
    unfold DataSetSerializerMixin_to_representation. step Hbase.
    erewrite bind_raise; [reflexivity|].
    unfold getattr, observe. by rewrite Hnone.
  - intros base self obj result dataset h h1 Hbase Hds Hmap.
    unfold DataSetSerializerMixin_to_representation. step Hbase. step Hds.
    erewrite bind_raise; [reflexivity|].
    unfold setitem. destruct result as [| | | | | |d|l]; try done.
    simpl in Hmap. by destruct (h1 !! l) as [[d|a]|].
Qed.


(** ** The keyword arguments of the display field *)

Lemma odict_set_NoDup k v d :
  NoDup (odict_keys d) → NoDup (odict_keys (odict_set k v d)).
Proof.
  intros Hd. rewrite odict_keys_set. case_decide as Hin; [done|].
  apply NoDup_app. split; [done|]. split.
  - intros k' Hk' ->%list_elem_of_singleton. done.
  - apply NoDup_singleton.
Qed.

Lemma same_but_weaken k ks d1 d2 :
  k ∉ odict_keys d1 → same_but (k :: ks) d1 d2 → same_but ks d1 d2.
Proof.
  unfold same_but, odict_keys. intros Hk Hsame.
  induction Hsame as [|[k1 v1] [k2 v2] d1 d2 [Hkey Hval] Hrest IH]; [constructor|].
  rewrite fmap_cons in Hk. apply not_elem_of_cons in Hk as [Hne Hk].
  constructor; [|by apply IH].
  split; [done|]. intros Hks. apply Hval. by apply not_elem_of_cons.
Qed.

Lemma odict_set_same_but k v ks d1 d2 :
  NoDup (odict_keys d1) →
  same_but (k :: ks) d1 d2 →
  same_but ks (odict_set k v d1) (odict_set k v d2).
Proof.
  unfold odict_keys. intros Hdup Hsame.
  induction Hsame as [|[k1 v1] [k2 v2] d1 d2 [Hkey Hval] Hrest IH].
  - constructor; [done|constructor].
  - simpl in Hkey, Hval. subst k2.
    rewrite fmap_cons in Hdup. apply NoDup_cons in Hdup as [Hfresh Hdup].
    cbn [odict_set]. destruct (String.eqb k k1) eqn:E.
    + apply String.eqb_eq in E. subst k1.
      constructor; [done|]. by apply (same_but_weaken k).
    + apply String.eqb_neq in E.
      constructor; [|by apply IH].
      split; [done|]. intros Hks. apply Hval.
      apply not_elem_of_cons. split; [congruence|done].
Qed.

Lemma same_but_nil d1 d2 : same_but [] d1 d2 → d1 = d2.
Proof.
  unfold same_but.
  induction 1 as [|[k1 v1] [k2 v2] d1 d2 [Hkey Hval] Hrest IH]; [done|].
  simpl in *. subst. f_equal. f_equal. apply Hval, not_elem_of_nil.
Qed.

(** X11. What a caller gives for [source] and [read_only] makes no
    difference: two calls whose keyword arguments are the same but for
    the values of these two construct the same field, or fail alike. *)
Theorem display_field_init_ignores_caller args kwargs1 kwargs2 :
  NoDup (odict_keys kwargs1) →
  same_but ["source"; "read_only"] kwargs1 kwargs2 →
  DisplayField_init args kwargs1 = DisplayField_init args kwargs2.
Proof.
  intros Hdup Hsame. unfold DisplayField_init. cbv zeta. f_equal.
  apply same_but_nil, odict_set_same_but; [by apply odict_set_NoDup|].
  by apply odict_set_same_but.
Qed.


(** ** Where the exceptions of the link methods come from *)

(** X12. The link methods fail only where their collaborator fails, and
    with its exception: [get_links] where [reverse] fails on its
    arguments; [LinksField.to_representation], for a field with a
    context and a view name, where [get_url] fails on the record, the
    view name and the request of the context; [get__links], for a
    context with a view and a record with the primary key attribute,
    where [reverse_action] fails on the value of that attribute. *)
Theorem link_exceptions :
  (∀ view_name kwargs request h e,
     (get_links view_name kwargs request h).1 = Raise e →
     reverse view_name kwargs request = Raise e)
  ∧
  (∀ self value ctx view_name h e,
     field_context h self ctx →
     attr h self "view_name" = Some view_name →
     (LinksField_to_representation self value h).1 = Raise e →
     get_url h self value view_name (default VNone (odict_get "request" ctx)) VNone
     = Raise e)
  ∧
  (∀ self obj ctx view pk_name pk_value h e,
     field_context h self ctx →
     odict_get "view" ctx = Some view →
     view_of_model h view (VStr pk_name) →
     attr h obj pk_name = Some pk_value →
     (SelfLinkSerializerMixin_get__links self obj h).1 = Raise e →
     reverse_action h view "detail" [pk_value] = Raise e).
Proof.
  split; [|split].
  - intros view_name kwargs request h e H. unfold get_links in H.
    destruct (reverse view_name kwargs request) as [u|e'] eqn:Hu.
    + erewrite bind_ok in H by (by apply observe_eq). done.
    + erewrite bind_raise in H by (by apply observe_eq). simpl in H. congruence.
  - intros self value ctx view_name h e (c & Hc & Hctx) Hname H.
    unfold LinksField_to_representation in H.
    erewrite bind_ok in H by (by apply getattr_ok). cbv beta in H.
    erewrite bind_ok in H by (by apply dict_get_ok). cbv beta in H.
    erewrite bind_ok in H by (by apply getattr_ok). cbv beta in H.
    destruct (get_url h self value view_name
                (default VNone (odict_get "request" ctx)) VNone) as [u|e'] eqn:Hu.
    + erewrite bind_ok in H by (by apply observe_eq). done.
    + erewrite bind_raise in H by (by apply observe_eq). simpl in H. congruence.
  - intros self obj ctx view pk_name pk_value h e Hctx Hview Hmodel Hpk H.
    rewrite (self_link_run _ _ _ _ _ _ Hctx Hview Hmodel) in H.
    unfold getattr_named in H.
    erewrite bind_ok in H by (by apply getattr_ok). cbv beta in H.
    destruct (reverse_action h view "detail" [pk_value]) as [u|e'] eqn:Hu.
    + erewrite bind_ok in H by (by apply observe_eq). done.
    + erewrite bind_raise in H by (by apply observe_eq). simpl in H. congruence.
Qed.

End Further.

(** * The further properties on the catalogue *)

(** C8 fails for the mixin: over a base serializer that renders a dict
    as that dict, the record at [feed] is itself given the key
    [dataset]; the store is not as it was. *)
Lemma dataset_tag_rewrites_record :
  store !! feed = Some (HDict [("id", VInt 5)])
  ∧ (DataSetSerializerMixin_to_representation pass_through_base
       (VRef serializer) (VRef feed) store).2 !! feed
    = Some (HDict [("id", VInt 5); ("dataset", VStr "bag")])
  ∧ (DataSetSerializerMixin_to_representation pass_through_base
       (VRef serializer) (VRef feed) store).2
    ≠ store.
Proof.
  repeat apply conj; [vm_compute; reflexivity..|].
  intros Heq.
  assert ((DataSetSerializerMixin_to_representation pass_through_base
             (VRef serializer) (VRef feed) store).2 !! feed = store !! feed) as Hfeed
    by (by rewrite Heq).
  vm_compute in Hfeed. discriminate.
Qed.

Lemma catalogue_context :
  field_context Catalogue.store (VRef Catalogue.serializer)
    [("request", VRef Catalogue.request); ("view", VRef Catalogue.view)].
Proof. exists (VRef Catalogue.context). split; vm_compute; reflexivity. Defined.

Lemma catalogue_field_context :
  field_context Catalogue.store (VRef Catalogue.links_field)
    [("request", VRef Catalogue.request); ("view", VRef Catalogue.view)].
Proof. exists (VRef Catalogue.context). split; vm_compute; reflexivity. Defined.

Lemma catalogue_offline_context :
  field_context Catalogue.store (VRef Catalogue.offline_field) [].
Proof. exists (VRef Catalogue.offline_context). split; vm_compute; reflexivity. Defined.

Lemma catalogue_view :
  view_of_model Catalogue.store (VRef Catalogue.view) (VStr "nummer").
Proof.
  exists (VRef Catalogue.queryset), (VRef Catalogue.Widget),
    (VRef Catalogue.Widget_meta), (VRef Catalogue.Widget_pk).
  repeat apply conj; vm_compute; reflexivity.
Defined.

Lemma catalogue_parts :
  related_manager Catalogue.store (VRef Catalogue.parts) "Part" VNone
    [("parent_id", VRef Catalogue.draft); ("status", VStr "open")].
Proof.
  exists (VRef Catalogue.Part), (VRef Catalogue.draft), (VRef Catalogue.parts_filters).
  repeat apply conj; vm_compute; reflexivity.
Defined.

(** The primary key of a widget is its [nummer]. *)
Lemma self_link_of_view_witness :
  SelfLinkSerializerMixin_get__links (views := Catalogue.demo_views)
    (VRef Catalogue.serializer) (VRef Catalogue.widget) Catalogue.store
  = (Ok (VDict [("self", VDict [("href", VStr "http://testserver/widgets/42/")])]),
     Catalogue.store).
Proof.
  apply (self_link_of_view (views := Catalogue.demo_views) _ _ _
           (VRef Catalogue.view) "nummer" (VInt 42) _ _
           catalogue_context eq_refl catalogue_view);
    vm_compute; reflexivity.
Defined.

(** A context without a view, and a record that is no widget. *)
Lemma self_link_of_view_errors_witness :
  SelfLinkSerializerMixin_get__links (views := Catalogue.demo_views)
    (VRef Catalogue.offline_field) (VRef Catalogue.widget) Catalogue.store
  = (Raise KeyError, Catalogue.store)
  ∧ SelfLinkSerializerMixin_get__links (views := Catalogue.demo_views)
      (VRef Catalogue.serializer) (VRef Catalogue.draft) Catalogue.store
    = (Raise AttributeError, Catalogue.store).
Proof.
  pose proof (self_link_of_view_errors (views := Catalogue.demo_views))
    as (Hview & Hattr & _ & _).
  split.
  - apply (Hview _ _ [] _ catalogue_offline_context). reflexivity.
  - apply (Hattr _ _ _ (VRef Catalogue.view) "nummer" _ catalogue_context eq_refl
             catalogue_view).
    vm_compute. reflexivity.
Defined.

Lemma self_links_agree_witness :
  LinksField_to_representation (collab := demo)
    (VRef Catalogue.links_field) (VRef Catalogue.widget) Catalogue.store
  = SelfLinkSerializerMixin_get__links (views := Catalogue.demo_views)
      (VRef Catalogue.serializer) (VRef Catalogue.widget) Catalogue.store.
Proof.
  apply (self_links_agree (collab := demo) (views := Catalogue.demo_views)
           (VRef Catalogue.links_field) (VRef Catalogue.serializer)
           (VRef Catalogue.widget)
           [("request", VRef Catalogue.request); ("view", VRef Catalogue.view)]
           [("request", VRef Catalogue.request); ("view", VRef Catalogue.view)]
           (VStr "widget-detail") (VRef Catalogue.view) "nummer" (VInt 42)
           (VStr "http://testserver/widgets/42/") Catalogue.store
           catalogue_field_context);
    first [ exact catalogue_context | exact catalogue_view
          | vm_compute; reflexivity ].
Defined.

(** The parts of a draft: two filter keys, and an owner without a
    primary key. *)
Lemma related_summary_first_key_witness :
  RelatedSummaryField_to_representation (collab := demo)
    (VRef Catalogue.serializer) (VRef Catalogue.parts) Catalogue.store
  = (Ok (VDict [("count", VInt 0);
                ("href", VStr "http://testserver/parts/?parent_id=None")]),
     Catalogue.store).
Proof.
  apply (related_summary_first_key (collab := demo)
           (VRef Catalogue.serializer) (VRef Catalogue.parts) Catalogue.store
           (VInt 0) "Part" VNone
           "parent_id" (VRef Catalogue.draft) [("status", VStr "open")]
           [("request", VRef Catalogue.request); ("view", VRef Catalogue.view)]
           (VRef Catalogue.request) "http://testserver/parts/" "None"
           eq_refl catalogue_parts catalogue_context eq_refl eq_refl eq_refl).
Defined.

Lemma related_summary_pk_text_witness :
  RelatedSummaryField_to_representation (collab := demo)
    (VRef Catalogue.serializer) (VRef Catalogue.parts) Catalogue.store
  = (Ok (VDict [("count", VInt 0);
                ("href", VStr ("http://testserver/parts/" +:+ "?" +:+ "parent_id"
                               +:+ "=None"))]),
     Catalogue.store).
Proof.
  apply (proj1 (related_summary_pk_text (collab := demo)
                  (VRef Catalogue.serializer) (VRef Catalogue.parts) Catalogue.store
                  (VInt 0) "Part" VNone
                  "parent_id" (VRef Catalogue.draft) [("status", VStr "open")]
                  [("request", VRef Catalogue.request); ("view", VRef Catalogue.view)]
                  (VRef Catalogue.request) "http://testserver/parts/"
                  eq_refl catalogue_parts catalogue_context eq_refl eq_refl)).
  reflexivity.
Defined.

(** The offline field has a context without a request. *)
Lemma missing_request_witness :
  LinksField_to_representation (collab := demo)
    (VRef Catalogue.offline_field) (VRef Catalogue.widget) Catalogue.store
  = (Ok (VDict [("self", VDict [("href", VStr "http://testserver/widgets/42/")])]),
     Catalogue.store)
  ∧ RelatedSummaryField_to_representation (collab := demo)
      (VRef Catalogue.offline_field) (VRef Catalogue.parts) Catalogue.store
    = (Raise KeyError, Catalogue.store).
Proof.
  pose proof (missing_request (collab := demo)) as (Hlinks & Hsummary).
  split.
  - apply (Hlinks _ _ [] (VStr "widget-detail") _ _ catalogue_offline_context);
      vm_compute; reflexivity.
  - apply (Hsummary _ _ (VInt 0) (VRef Catalogue.Part) "Part" []);
      first [ exact catalogue_offline_context | vm_compute; reflexivity ].
Defined.

Lemma related_summary_exceptions_witness :
  count (Collaborators := demo) store (VRef gadgets) = Raise ResolutionError
  ∨ (∃ c, count (Collaborators := demo) store (VRef gadgets) = Ok c
          ∧ reverse (Collaborators := demo) (py_lower (collab := demo) "Gadget" +:+ "-list")
              VNone (VRef request)
            = Raise ResolutionError)
  ∨ (∃ c url, count (Collaborators := demo) store (VRef gadgets) = Ok c
              ∧ reverse (Collaborators := demo)
                  (py_lower (collab := demo) "Gadget" +:+ "-list") VNone (VRef request)
                = Ok url
              ∧ (([("parent_id", VRef widget)] = [] ∧ ResolutionError = IndexError)
                 ∨ ([("parent_id", VRef widget)] ≠ []
                    ∧ py_format (collab := demo) (VInt 42) store
                      = (Raise ResolutionError, store)))).
Proof.
  apply (related_summary_exceptions (collab := demo) (VRef serializer) (VRef gadgets)
           store "Gadget" (VInt 42) [("parent_id", VRef widget)]
           [("request", VRef request)] (VRef request) ResolutionError
           related_manager_gadgets field_context_serializer eq_refl).
  vm_compute. reflexivity.
Defined.

Lemma geometry_exceptions_witness :
  object_truth (Collaborators := demo) store (VRef broken_point) = Raise DecodeError
  ∨ (object_truth (Collaborators := demo) store (VRef broken_point) = Ok true
     ∧ (∀ text, VStr "POINT (4.9 52.3)" ≠ VStr text) ∧ DecodeError = TypeError)
  ∨ (object_truth (Collaborators := demo) store (VRef broken_point) = Ok true
     ∧ ∃ text, VStr "POINT (4.9 52.3)" = VStr text
               ∧ json_loads (Collaborators := demo) text = Raise DecodeError).
Proof.
  apply (geometry_exceptions (collab := demo) (VRef serializer) (VRef broken_point)
           (VStr "POINT (4.9 52.3)") store DecodeError).
  - vm_compute. reflexivity.
  - vm_compute. reflexivity.
Defined.

(** A record whose [geometrie] is a text, and a record without one. *)
Lemma geometry_not_an_object_witness :
  MultipleGeometryField_get_attribute (VRef Catalogue.serializer)
    (VRef Catalogue.draft) Catalogue.store
  = (Raise AttributeError, Catalogue.store)
  ∧ MultipleGeometryField_get_attribute (VRef Catalogue.serializer)
      (VRef Catalogue.sketch) Catalogue.store
    = (Ok (VStr "POINT (4.9 52.3)"), Catalogue.store)
  ∧ MultipleGeometryField_to_representation (collab := demo)
      (VRef Catalogue.serializer) (VStr "POINT (4.9 52.3)") Catalogue.store
    = (Raise AttributeError, Catalogue.store).
Proof.
  pose proof (geometry_not_an_object (collab := demo)) as (Hattr & _ & Hstr & _).
  split; [|split].
  - apply Hattr. vm_compute. reflexivity.
  - vm_compute. reflexivity.
  - apply Hstr. discriminate.
Defined.

(** A serializer without a dataset, and a base serializer that returns
    [None]. *)
Lemma dataset_tag_errors_witness :
  DataSetSerializerMixin_to_representation Catalogue.shared_base
    (VRef Catalogue.untagged) (VRef Catalogue.widget) Catalogue.store
  = (Raise AttributeError, Catalogue.store)
  ∧ DataSetSerializerMixin_to_representation Catalogue.null_base
      (VRef Catalogue.serializer) (VRef Catalogue.widget) Catalogue.store
    = (Raise TypeError, Catalogue.store).
Proof.
  split.
  - apply (proj1 dataset_tag_errors Catalogue.shared_base _ _
             (VRef Catalogue.rendered) _ _ eq_refl).
    vm_compute. reflexivity.
  - apply (proj2 dataset_tag_errors Catalogue.null_base _ _ VNone (VStr "bag")
             _ _ eq_refl); vm_compute; reflexivity.
Defined.

Lemma display_field_init_ignores_caller_witness :
  DisplayField_init (collab := demo) []
    [("source", VStr "name"); ("label", VStr "Name")]
  = DisplayField_init (collab := demo) []
      [("source", VStr "title"); ("label", VStr "Name")].
Proof.
  apply (display_field_init_ignores_caller (collab := demo)).
  - apply (bool_decide_unpack _). vm_compute. exact I.
  - constructor; [split; [reflexivity|]|].
    + intros Hout. exfalso. apply Hout. apply list_elem_of_here.
    + constructor; [split; reflexivity|constructor].
Defined.

(** No route is called [gadget-detail], and the detail route of the
    view set takes a number. *)
Lemma link_exceptions_witness :
  reverse (Collaborators := demo) "gadget-detail" VNone VNone = Raise ResolutionError
  ∧ get_url (Collaborators := demo) store (VRef other_serializer) (VRef widget)
      (VStr "gadget-detail") (VRef request) VNone
    = Raise ResolutionError
  ∧ reverse_action (ViewSet := Catalogue.demo_views) Catalogue.store
      (VRef Catalogue.view) "detail" [VStr "p-1"]
    = Raise ResolutionError.
Proof.
  pose proof (link_exceptions (collab := demo) (views := Catalogue.demo_views))
    as (Hlinks & Hfield & Hview).
  split; [|split].
  - apply (Hlinks "gadget-detail" VNone VNone store). vm_compute. reflexivity.
  - apply (Hfield (VRef other_serializer) (VRef widget) [("request", VRef request)]
             (VStr "gadget-detail") store ResolutionError
             field_context_other_serializer eq_refl).
    vm_compute. reflexivity.
  - apply (Hview (VRef Catalogue.serializer) (VRef Catalogue.prototype)
             [("request", VRef Catalogue.request); ("view", VRef Catalogue.view)]
             (VRef Catalogue.view) "nummer" (VStr "p-1") Catalogue.store
             ResolutionError catalogue_context eq_refl catalogue_view eq_refl).
    vm_compute. reflexivity.
Defined.
